(** * ado-pipeline-doc: a shallow embedding of [src/ado-pipeline-doc.py]

    The tool reads a pipeline definition (YAML), turns its [parameters]
    list into a markdown table and either prints the table or splices it
    into a markdown file between two marker comments.

    Definitions, in this order:
    - [PyStr]: the Python string operations the code calls
      ([str.find], slicing, [str.join], [str.strip], [str.replace]) and
      the newline translation of a file read in text mode;
    - [PyData]: what [yaml.safe_load] produces (None, bool, int, str, list,
      dict), truthiness and the [dict] and [list] methods that are used;
    - [PyLib], [PyShow]: the library functions taken as given, and [str()];
    - [exn], [outcome], [world], [M]: exceptions, files and standard
      output, and the exception/state monad the methods run in;
    - [ADOPipelineDoc]: [readFile], [prettyObject], [parseYAML],
      [processData], [writeFile] and [__init__] (called [init]);
    - [Rows]: closed forms of the two loops of [processData];
    - [Example]: a stand-in library and three documents to run on;
    - [ParsePipeline]: the script [src/parse_pipeline.py];
    - [Fixture]: a library that loads from a table;
    - [SinkSpec]: the merge as the specification words it.

    Properties: [PyStrFacts], [NewlineFacts] and [FindFacts] (strings),
    [SinkFacts] ([writeFile]), [RowFacts] ([processData]), [RowExamples],
    [RunFacts] ([parseYAML], [init]); then [SinkProps] and [Rerun] (more
    on [writeFile]), [LoaderProps] and [RunProps] (errors and effects of
    a run),
    [TableProps], [TableExamples] and [CellProps] (more on
    [processData] and [prettyObject]), [ScriptProps] (the script).

    Strings are [string]s of 8-bit characters.  Floating point numbers and
    timestamps, which YAML can also produce, are not part of [value]; keys
    of mappings are strings.  A file is read in text mode: its text comes
    with universal newlines, and reading can fail with FileNotFoundError,
    PermissionError, UnicodeDecodeError or IsADirectoryError.  Writing a
    file always succeeds and writes LF as LF: a target that cannot be
    written, a missing temporary directory and a failing [os.replace] are
    not modelled. *)

From Stdlib Require Import ZArith Lia Bool List Ascii String DecimalString.
From stdpp Require Import base option list strings gmap.

Local Open Scope string_scope.
Local Open Scope Z_scope.

(** ** Python strings *)

Module PyStr.

Definition len (s : string) : Z := Z.of_nat (String.length s).

Fixpoint startswith (sub s : string) : bool :=
  match sub, s with
  | EmptyString, _ => true
  | String a sub', String b s' => Ascii.eqb a b && startswith sub' s'
  | String _ _, EmptyString => false
  end.

(** [s.find(sub)]: the lowest index at which [sub] occurs in [s], or
    [-1]. *)
Fixpoint find (sub s : string) {struct s} : Z :=
  if startswith sub s then 0
  else match s with
       | EmptyString => -1
       | String _ s' =>
           let r := find sub s' in
           if r =? -1 then -1 else r + 1
       end.

Fixpoint take (n : nat) (s : string) : string :=
  match n, s with
  | S n', String a s' => String a (take n' s')
  | _, _ => EmptyString
  end.

Fixpoint drop (n : nat) (s : string) : string :=
  match n, s with
  | S n', String _ s' => drop n' s'
  | _, _ => s
  end.

(** A slice bound: a negative bound counts from the end of the string. *)
Definition bound (s : string) (i : Z) : nat :=
  if i <? 0 then Z.to_nat (Z.max 0 (len s + i)) else Z.to_nat i.

(** [s[:i]] and [s[i:]]. *)
Definition upto (s : string) (i : Z) : string := take (bound s i) s.
Definition from (s : string) (i : Z) : string := drop (bound s i) s.

(** [sep.join(l)]. *)
Fixpoint join (sep : string) (l : list string) : string :=
  match l with
  | [] => EmptyString
  | [x] => x
  | x :: l' => x +:+ sep +:+ join sep l'
  end.

(** [str.isspace] on one character (code points below 256). *)
Definition isspace (a : ascii) : bool :=
  let n := N_of_ascii a in
  ((9 <=? n) && (n <=? 13) || (28 <=? n) && (n <=? 32)
   || (n =? 133) || (n =? 160))%N.

Fixpoint lstrip (s : string) : string :=
  match s with
  | String a s' => if isspace a then lstrip s' else s
  | EmptyString => EmptyString
  end.

Fixpoint rstrip (s : string) : string :=
  match s with
  | String a s' =>
      match rstrip s' with
      | EmptyString => if isspace a then EmptyString else String a EmptyString
      | r => String a r
      end
  | EmptyString => EmptyString
  end.

Definition strip (s : string) : string := rstrip (lstrip s).

(** [s.replace(old, new)] for a one-character [old]. *)
Fixpoint replace (old : ascii) (new s : string) : string :=
  match s with
  | EmptyString => EmptyString
  | String a s' =>
      if Ascii.eqb a old then new +:+ replace old new s'
      else String a (replace old new s')
  end.

Definition nl : string := String (ascii_of_N 10) EmptyString.

Definition cr : ascii := ascii_of_N 13.
Definition lf : ascii := ascii_of_N 10.

(** What a file opened in text mode gives for its decoded text: with
    universal newlines, every CR LF and every other CR has become LF. *)
Fixpoint universal_newlines (s : string) : string :=
  match s with
  | EmptyString => EmptyString
  | String a s' =>
      if Ascii.eqb a cr then
        String lf
          match s' with
          | String b s'' =>
              if Ascii.eqb b lf then universal_newlines s''
              else universal_newlines s'
          | EmptyString => EmptyString
          end
      else String a (universal_newlines s')
  end.

(** A text without CR and without LF. *)
Fixpoint one_line (s : string) : bool :=
  match s with
  | EmptyString => true
  | String a s' => negb (Ascii.eqb a cr) && negb (Ascii.eqb a lf) && one_line s'
  end.

End PyStr.

(** ** Python data, as [yaml.safe_load] produces it *)

Module PyData.

(** A [dict] keeps its keys in insertion order. *)
Abbreviation dict V := (list (string * V)).

#[warning="-register-all"] Inductive value : Type :=
| VNone
| VBool (b : bool)
| VInt (z : Z)
| VStr (s : string)
| VList (l : list value)
| VDict (d : dict value).

(** [bool(v)]. *)
Definition truthy (v : value) : bool :=
  match v with
  | VNone => false
  | VBool b => b
  | VInt z => negb (z =? 0)
  | VStr s => negb (String.eqb s "")
  | VList l => match l with [] => false | _ => true end
  | VDict d => match d with [] => false | _ => true end
  end.

(** [v == s] for a string literal [s]. *)
Definition eq_str (v : value) (s : string) : bool :=
  match v with
  | VStr s' => String.eqb s' s
  | _ => false
  end.

Section Dict.
Context {V : Type}.

(** [k in d] and [d[k]] in one: the value bound to [k], if any. *)
Fixpoint dict_get (d : dict V) (k : string) : option V :=
  match d with
  | [] => None
  | (k', v) :: d' => if String.eqb k' k then Some v else dict_get d' k
  end.

(** [d[k] = v]: an existing key keeps its place, a new one goes last. *)
Fixpoint dict_set (d : dict V) (k : string) (v : V) : dict V :=
  match d with
  | [] => [(k, v)]
  | (k', v') :: d' =>
      if String.eqb k' k then (k', v) :: d'
      else (k', v') :: dict_set d' k v
  end.

(** [d.update(other)]. *)
Definition dict_update (d other : dict V) : dict V :=
  fold_left (fun acc kv => dict_set acc kv.1 kv.2) other d.

(** [d.pop(k, None)], for its effect on [d]. *)
Definition dict_pop (d : dict V) (k : string) : dict V :=
  List.filter (fun kv => negb (String.eqb kv.1 k)) d.

Definition dict_keys (d : dict V) : list string := map fst d.

(** [d.get(k, dflt)]. *)
Definition dict_get_or (d : dict V) (k : string) (dflt : V) : V :=
  default dflt (dict_get d k).
End Dict.

(** [list.remove(x)]: drops the first occurrence; [None] stands for the
    [ValueError] raised when there is none. *)
Fixpoint list_remove (x : string) (l : list string) : option (list string) :=
  match l with
  | [] => None
  | y :: l' =>
      if String.eqb y x then Some l'
      else option_map (cons y) (list_remove x l')
  end.

End PyData.

Import PyData.

(** ** The libraries the program calls

    [repr] of a string (quoting and escaping), [yaml.dump(_,
    default_flow_style=False)] and [yaml.safe_load] belong to Python and
    PyYAML, not to this repository.  [safe_load] answers [None] where
    PyYAML raises a [YAMLError]. *)

Class PyLib : Type := {
  str_repr : string -> string;
  yaml_dump : value -> string;
  yaml_safe_load : string -> option value
}.

Module PyShow.
Section Show.
Context `{PyLib}.

(** [repr(v)]. *)
Fixpoint repr (v : value) : string :=
  match v with
  | VNone => "None"
  | VBool b => if b then "True" else "False"
  | VInt z => NilZero.string_of_int (Z.to_int z)
  | VStr s => str_repr s
  | VList l => "[" +:+ PyStr.join ", " (map repr l) +:+ "]"
  | VDict d =>
      "{" +:+ PyStr.join ", "
               (map (fun kv => str_repr (fst kv) +:+ ": " +:+ repr (snd kv)) d)
          +:+ "}"
  end.

(** [str(v)]. *)
Definition str (v : value) : string :=
  match v with
  | VStr s => s
  | _ => repr v
  end.
End Show.
End PyShow.

(** ** Exceptions

    The program raises one class, [ADOPipelineDocException], with a
    message.  The message decides the kind:
    - [NoInputFile]: "Input file must be provided to ADOPipelineDoc."
    - [ConfigNotFound]: "The file ... was not found."
    - [AccessDenied]: "Permission denied for file ..."
    - [MalformedConfig]: "Error parsing YAML file: ..."
    - [EmptyConfig]: "YAML file is empty or contains null data."
    - [NoParameters]: "YAML file has no parameters."
    - [MissingRequiredField]: "Parameter missing 'name' or 'type': ..."
    - [NotADict]: "Object must be a dictionary if a key is provided."
    - [KeyNotFound]: "Key '...' not found in the object."
    - [DanglingEndMarker]: "No start comment found in ..."
    - [DanglingStartMarker]: "No end comment found in ..."
    The other constructors of [exn] are the Python built-in exceptions
    that can escape. *)

Inductive ErrorKind : Type :=
| NoInputFile | ConfigNotFound | AccessDenied | MalformedConfig
| EmptyConfig | NoParameters | MissingRequiredField
| NotADict | KeyNotFound
| DanglingEndMarker | DanglingStartMarker.

Inductive exn : Type :=
| ADOPipelineDocException (k : ErrorKind)
| AttributeError
| TypeError
| ValueError
| FileNotFoundError
| PermissionError
| UnicodeDecodeError
| IsADirectoryError
| KeyError
| YAMLError.

Inductive outcome (A : Type) : Type :=
| Ok (a : A)
| Raise (e : exn).
Arguments Ok {A} a.
Arguments Raise {A} e.

Definition bindE {A B} (c : outcome A) (k : A -> outcome B) : outcome B :=
  match c with
  | Ok a => k a
  | Raise e => Raise e
  end.

Notation "'let*' p ':=' c 'in' k" :=
  (bindE c (fun p => k))
  (at level 10, p pattern, c at level 100, k at level 200, only parsing).

(** [for x in l: st = body(st, x)], stopping at the first exception. *)
Fixpoint forE {S A} (body : S -> A -> outcome S) (l : list A) (st : S) : outcome S :=
  match l with
  | [] => Ok st
  | x :: l' => bindE (body st x) (forE body l')
  end.

(** [[f(x) for x in l]], stopping at the first exception. *)
Fixpoint mapE {A B} (f : A -> outcome B) (l : list A) : outcome (list B) :=
  match l with
  | [] => Ok []
  | x :: l' =>
      let* y := f x in
      let* ys := mapE f l' in
      Ok (y :: ys)
  end.

(** ** The world: files and standard output *)

(** What a path names: a regular file whose bytes decode, in the encoding
    of the locale, to the text [content], and which the process may read
    or not; a readable regular file whose bytes do not decode; a
    directory. *)
Inductive file : Type :=
| File (content : string) (readable : bool)
| Undecodable
| Directory.

Record world : Type := World { files : gmap string file; stdout : list string }.

(** A computation may change the world and then return or raise; what it
    changed before raising stays changed. *)
Definition M (A : Type) : Type := world -> outcome A * world.

Definition retM {A} (a : A) : M A := fun w => (Ok a, w).
Definition raiseM {A} (e : exn) : M A := fun w => (Raise e, w).
Definition liftE {A} (c : outcome A) : M A := fun w => (c, w).

Definition bindM {A B} (c : M A) (k : A -> M B) : M B :=
  fun w =>
    match c w with
    | (Ok a, w') => k a w'
    | (Raise e, w') => (Raise e, w')
    end.

Notation "'let+' p ':=' c 'in' k" :=
  (bindM c (fun p => k))
  (at level 10, p pattern, c at level 100, k at level 200, only parsing).

(** [try: body / except: handler], the handler choosing what it catches. *)
Definition tryM {A} (body : M A) (handler : exn -> option (M A)) : M A :=
  fun w =>
    match body w with
    | (Ok a, w') => (Ok a, w')
    | (Raise e, w') =>
        match handler e with
        | Some h => h w'
        | None => (Raise e, w')
        end
    end.

(** [open(path, 'r')] followed by [read()]: text mode, so the text comes
    decoded and with universal newlines. *)
Definition open_read (path : string) : M string :=
  fun w =>
    match files w !! path with
    | None => (Raise FileNotFoundError, w)
    | Some (File content readable) =>
        if readable then (Ok (PyStr.universal_newlines content), w)
        else (Raise PermissionError, w)
    | Some Undecodable => (Raise UnicodeDecodeError, w)
    | Some Directory => (Raise IsADirectoryError, w)
    end.

(** [open(path, 'w')] followed by [write(text)], and also the net effect of
    writing [text] to a fresh temporary file and moving it over [path]
    with [os.replace].  The text is written as it is: the line separator
    of the platform is taken to be LF. *)
Definition put_file (path text : string) : M unit :=
  fun w => (Ok tt, World (<[path := File text true]> (files w)) (stdout w)).

(** [print(text)]. *)
Definition print (text : string) : M unit :=
  fun w => (Ok tt, World (files w) (stdout w ++ [text])%list).

(** ** The class [ADOPipelineDoc] *)

Module ADOPipelineDoc.
Section Methods.
Context `{PyLib}.

Definition mdEnd : string := "ADOPipelineDoc End".
Definition mdStart : string := "ADOPipelineDoc Start".

Definition mdStartStr : string := "<!-- " +:+ mdStart +:+ " -->".
Definition mdEndStr : string := "<!-- " +:+ mdEnd +:+ " -->".

Definition printTable (table_rows : list string) : M unit :=
  print (PyStr.join PyStr.nl table_rows).

Definition readFile (file_path : string) : M string :=
  tryM (open_read file_path)
    (fun e =>
       match e with
       | FileNotFoundError => Some (raiseM (ADOPipelineDocException ConfigNotFound))
       | PermissionError => Some (raiseM (ADOPipelineDocException AccessDenied))
       | _ => None
       end).

Definition prettyObject (obj : value) (key : option string) : outcome string :=
  let* pretty :=
    match key with
    | Some k =>
        match obj with
        | VDict d =>
            match dict_get d k with
            | Some v => Ok (yaml_dump v)
            | None => Raise (ADOPipelineDocException KeyNotFound)
            end
        | _ => Raise (ADOPipelineDocException NotADict)
        end
    | None => Ok (yaml_dump obj)
    end in
  Ok (PyStr.replace (ascii_of_N 10) "<br/>" (PyStr.strip pretty)).

(** [obj.get(k, dflt)]: only a [dict] has the method. *)
Definition get (obj : value) (k : string) (dflt : value) : outcome value :=
  match obj with
  | VDict d => Ok (dict_get_or d k dflt)
  | _ => Raise AttributeError
  end.

Definition parseYAML (yamlFile : string) : M value :=
  tryM
    (let+ content := readFile yamlFile in
     let+ data :=
       liftE (match yaml_safe_load content with
              | Some v => Ok v
              | None => Raise YAMLError
              end) in
     match data with
     | VNone => raiseM (ADOPipelineDocException EmptyConfig)
     | _ =>
         let+ params := liftE (get data "parameters" (VList [])) in
         if negb (truthy params)
         then raiseM (ADOPipelineDocException NoParameters)
         else retM params
     end)
    (fun e =>
       match e with
       | YAMLError => Some (raiseM (ADOPipelineDocException MalformedConfig))
       | _ => None
       end).

(** *** [processData] *)

Definition heading_order : list string :=
  ["required"; "name"; "type"; "displayName"; "values"; "default"].

Definition heading_separator : dict string :=
  [("required", ":-:"); ("name", ":--"); ("type", ":--");
   ("displayName", ":--"); ("values", ":--"); ("default", ":--")].

Definition object_template : dict value :=
  [("required", VStr "Yes"); ("name", VStr ""); ("type", VStr "");
   ("displayName", VStr ""); ("values", VStr ""); ("default", VStr "")].

Definition use_col : dict bool :=
  [("displayName", false); ("values", false); ("default", false)].

(** [for param in self.parameters]: what iterating over a value yields. *)
Definition iter (v : value) : outcome (list value) :=
  match v with
  | VList l => Ok l
  | VDict d => Ok (map (fun kv => VStr (fst kv)) d)
  | VStr s => Ok (map (fun a => VStr (String a EmptyString)) (list_ascii_of_string s))
  | _ => Raise TypeError
  end.

(** [row_object.update(param)]. *)
Definition update (row_object : dict value) (param : value) : outcome (dict value) :=
  match param with
  | VDict d => Ok (dict_update row_object d)
  | _ => Raise TypeError
  end.

(** The body of the first loop, on [(use_col, rows)]. *)
Definition build_row (st : dict bool * list (dict value)) (param : value)
  : outcome (dict bool * list (dict value)) :=
  let '(use_col, rows) := st in
  let* name := get param "name" VNone in
  let* missing :=
    if negb (truthy name) then Ok true
    else (let* type := get param "type" VNone in Ok (negb (truthy type))) in
  if (missing : bool) then Raise (ADOPipelineDocException MissingRequiredField)
  else
    let* displayName := get param "displayName" (VStr "") in
    let use_col :=
      if truthy displayName then dict_set use_col "displayName" true else use_col in
    let* values := get param "values" (VStr "") in
    let use_col :=
      if truthy values then dict_set use_col "values" true else use_col in
    let* row_object := update object_template param in
    let* default := get param "default" (VStr "") in
    let '(use_col, row_object) :=
      if truthy default
      then (dict_set use_col "default" true,
            dict_set row_object "required" (VStr ""))
      else (use_col, row_object) in
    let* type := get param "type" VNone in
    let* object_default :=
      if eq_str type "object"
      then (let* default := get param "default" VNone in Ok (truthy default))
      else Ok false in
    let* row_object :=
      if (object_default : bool)
      then (let* pretty := prettyObject param (Some "default") in
            Ok (dict_set row_object "default" (VStr pretty)))
      else Ok row_object in
    let* values := get param "values" VNone in
    let* row_object :=
      if truthy values
      then (let* pretty := prettyObject param (Some "values") in
            Ok (dict_set row_object "values" (VStr pretty)))
      else Ok row_object in
    Ok (use_col, (rows ++ [row_object])%list).

(** The body of the second loop, on [(heading_order, rows)], for one item
    of [use_col.items()]. *)
Definition drop_col (st : list string * list (dict value)) (item : string * bool)
  : outcome (list string * list (dict value)) :=
  let '(heading_order, rows) := st in
  let '(key, value) := item in
  if negb value then
    match list_remove key heading_order with
    | Some heading_order => Ok (heading_order, map (fun row => dict_pop row key) rows)
    | None => Raise ValueError
    end
  else Ok st.

(** Both loops: the columns that survive and the rows as they are when
    rendering starts. *)
Definition build (parameters : value) : outcome (list string * list (dict value)) :=
  let* params := iter parameters in
  let* (use_col, rows) := forE build_row params (use_col, []) in
  forE drop_col use_col (heading_order, rows).

Definition table_line (cells : list string) : string :=
  "| " +:+ PyStr.join " | " cells +:+ " |".

Definition separator_cell (key : string) : outcome string :=
  match dict_get heading_separator key with
  | Some s => Ok s
  | None => Raise KeyError
  end.

Definition row_text (heading_order : list string) (row : dict value) : string :=
  table_line (map (fun key => PyShow.str (dict_get_or row key (VStr ""))) heading_order).

Definition render (mdFile : option string) (heading_order : list string)
    (rows : list (dict value)) : outcome (list string) :=
  let table_rows := match mdFile with Some _ => [mdStartStr] | None => [] end in
  let header_row := table_line heading_order in
  let* cells := mapE separator_cell heading_order in
  let separator_row := table_line cells in
  let table_rows := (table_rows ++ [header_row])%list in
  let table_rows := (table_rows ++ [separator_row])%list in
  let table_rows := (table_rows ++ map (row_text heading_order) rows)%list in
  let table_rows :=
    match mdFile with Some _ => (table_rows ++ [mdEndStr])%list | None => table_rows end in
  Ok table_rows.

Definition processData (parameters : value) (mdFile : option string)
  : outcome (list string) :=
  let* (heading_order, rows) := build parameters in
  render mdFile heading_order rows.

(** *** [writeFile] *)

Definition writeFile (mdFile : option string) (table_rows : list string) : M unit :=
  match mdFile with
  | None => printTable table_rows
  | Some path =>
      tryM
        (let+ content := readFile path in
         let start_index := PyStr.find mdStartStr content in
         let end_index := PyStr.find mdEndStr content in
         if (start_index =? -1) && (end_index >? -1)
         then raiseM (ADOPipelineDocException DanglingEndMarker)
         else if (start_index >? -1) && (end_index =? -1)
         then raiseM (ADOPipelineDocException DanglingStartMarker)
         else if (start_index =? -1) && (end_index =? -1)
         then put_file path (content +:+ PyStr.nl +:+ PyStr.join PyStr.nl table_rows)
         else
           let end_index := end_index + PyStr.len mdEndStr in
           let new_content :=
             PyStr.upto content start_index
               +:+ PyStr.join PyStr.nl table_rows
               +:+ PyStr.from content end_index in
           put_file path new_content)
        (fun e =>
           match e with
           | FileNotFoundError =>
               Some (put_file path (PyStr.join PyStr.nl table_rows +:+ PyStr.nl))
           | _ => None
           end)
  end.

(** *** [__init__] *)

Definition init (yamlFile mdFile : option string) : M unit :=
  match yamlFile with
  | None => raiseM (ADOPipelineDocException NoInputFile)
  | Some yamlFile =>
      let+ parameters := parseYAML yamlFile in
      let+ table_rows := liftE (processData parameters mdFile) in
      writeFile mdFile table_rows
  end.

End Methods.
End ADOPipelineDoc.

(** ** What the two loops of [processData] compute

    Closed forms of the loop bodies on a parameter that is a mapping.
    They are proved equal to the loops below ([RowFacts.build_row_dict],
    [RowFacts.build_valid]). *)

Module Rows.
Import ADOPipelineDoc.
Section Rows.
Context `{PyLib}.

(** The test that guards the first loop: [name] and [type] are truthy. *)
Definition valid_param (d : dict value) : bool :=
  truthy (dict_get_or d "name" VNone) && truthy (dict_get_or d "type" VNone).

(** [param.get(key, '')] is truthy: the parameter populates the field. *)
Definition populates (key : string) (d : dict value) : bool :=
  truthy (dict_get_or d key (VStr "")).

(** [use_col], by its three entries. *)
Definition flags (a b c : bool) : dict bool :=
  [("displayName", a); ("values", b); ("default", c)].

(** [use_col] after the first loop. *)
Definition usage (ds : list (dict value)) : dict bool :=
  flags (existsb (populates "displayName") ds)
        (existsb (populates "values") ds)
        (existsb (populates "default") ds).

(** What [prettyObject] answers for a value. *)
Definition pretty (v : value) : string :=
  PyStr.replace (ascii_of_N 10) "<br/>" (PyStr.strip (yaml_dump v)).

(** [row_object] at [rows.append(row_object)]. *)
Definition row_of (d : dict value) : dict value :=
  let row_object := dict_update object_template d in
  let row_object :=
    if populates "default" d then dict_set row_object "required" (VStr "")
    else row_object in
  let row_object :=
    if eq_str (dict_get_or d "type" VNone) "object" && populates "default" d
    then dict_set row_object "default" (VStr (pretty (dict_get_or d "default" VNone)))
    else row_object in
  if populates "values" d
  then dict_set row_object "values" (VStr (pretty (dict_get_or d "values" VNone)))
  else row_object.

(** A row after the second loop: the keys of the unused columns popped. *)
Definition prune (use : dict bool) (row : dict value) : dict value :=
  fold_left (fun row item => if negb (snd item) then dict_pop row (fst item) else row)
            use row.

(** [heading_order] after the second loop. *)
Definition columns (use : dict bool) : list string :=
  List.filter (fun key => match dict_get use key with
                          | Some false => false
                          | _ => true
                          end) heading_order.

(** The fields of a parameter that the program knows by name. *)
Definition recognized (key : string) : bool :=
  existsb (String.eqb key) ["name"; "type"; "displayName"; "default"; "values"].

(** A parameter without its unrecognized fields. *)
Definition strip_unknown (d : dict value) : dict value :=
  List.filter (fun kv => recognized (fst kv)) d.

(** The cells of the separator row. *)
Definition separators (cols : list string) : list string :=
  map (fun key => dict_get_or heading_separator key "") cols.

(** The marker lines that bracket the table when a target is given. *)
Definition opening (mdFile : option string) : list string :=
  match mdFile with Some _ => [mdStartStr] | None => [] end.
Definition closing (mdFile : option string) : list string :=
  match mdFile with Some _ => [mdEndStr] | None => [] end.

End Rows.
End Rows.

(** ** A stand-in for the libraries

    To run the program on examples the three library functions need
    values.  [Example.lib] quotes a string with single quotes, dumps
    scalars and flat sequences in block style, and loads the three
    documents below; every other text is a [YAMLError]. *)

Module Example.

Definition scalar (v : value) : string :=
  match v with
  | VNone => "null"
  | VBool b => if b then "true" else "false"
  | VInt z => NilZero.string_of_int (Z.to_int z)
  | VStr s => s
  | _ => ""
  end.

Definition dump (v : value) : string :=
  match v with
  | VList l => String.concat "" (map (fun x => "- " +:+ scalar x +:+ PyStr.nl) l)
  | _ => scalar v +:+ PyStr.nl
  end.

(** Two parameters, both with a name and a type. *)
Definition pipeline_yaml : string :=
  "parameters:" +:+ PyStr.nl
  +:+ "- name: env" +:+ PyStr.nl
  +:+ "  type: string" +:+ PyStr.nl
  +:+ "- name: replicas" +:+ PyStr.nl
  +:+ "  type: number" +:+ PyStr.nl
  +:+ "  default: 3" +:+ PyStr.nl.

Definition pipeline_params : list (dict value) :=
  [ [("name", VStr "env"); ("type", VStr "string")];
    [("name", VStr "replicas"); ("type", VStr "number"); ("default", VInt 3)] ].

(** The second parameter has no type. *)
Definition untyped_yaml : string :=
  "parameters:" +:+ PyStr.nl
  +:+ "- name: env" +:+ PyStr.nl
  +:+ "  type: string" +:+ PyStr.nl
  +:+ "- name: replicas" +:+ PyStr.nl.

Definition untyped_params : list (dict value) :=
  [ [("name", VStr "env"); ("type", VStr "string")];
    [("name", VStr "replicas")] ].

(** A document whose top level is a sequence. *)
Definition sequence_yaml : string :=
  "- env" +:+ PyStr.nl +:+ "- replicas" +:+ PyStr.nl.

Definition load (text : string) : option value :=
  if String.eqb text pipeline_yaml
  then Some (VDict [("parameters", VList (map VDict pipeline_params))])
  else if String.eqb text untyped_yaml
  then Some (VDict [("parameters", VList (map VDict untyped_params))])
  else if String.eqb text sequence_yaml
  then Some (VList [VStr "env"; VStr "replicas"])
  else None.

Definition lib : PyLib :=
  {| str_repr := fun s => "'" +:+ s +:+ "'";
     yaml_dump := dump;
     yaml_safe_load := load |}.

End Example.

(** ** The script [src/parse_pipeline.py]

    A shorter script of the same repository: it loads the file, takes the
    parameters and writes a table of name, type, default and description,
    every line ended by a newline.  An f-string formats a value as [str]
    does.  Nothing is caught: the exceptions of [open] and of PyYAML
    escape as they are. *)

Module ParsePipeline.
Import ADOPipelineDoc.
Section Script.
Context `{PyLib}.

Definition table_head : string :=
  "| Name | Type | Default | Description |" +:+ PyStr.nl
  +:+ "|------|------|---------|-------------|" +:+ PyStr.nl.

(** The body of the loop: the table with the line of [param] added. *)
Definition add_line (markdown_table : string) (param : value) : outcome string :=
  let* name := get param "name" (VStr "") in
  let* param_type := get param "type" (VStr "") in
  let* default := get param "default" (VStr "") in
  let* description := get param "description" (VStr "") in
  Ok (markdown_table
        +:+ "| " +:+ PyShow.str name +:+ " | " +:+ PyShow.str param_type
        +:+ " | " +:+ PyShow.str default +:+ " | " +:+ PyShow.str description
        +:+ " |" +:+ PyStr.nl).

Definition parse_yaml_to_markdown (yaml_file_path : string) : M string :=
  let+ text := open_read yaml_file_path in
  let+ yaml_content :=
    liftE (match yaml_safe_load text with
           | Some v => Ok v
           | None => Raise YAMLError
           end) in
  let+ parameters := liftE (get yaml_content "parameters" (VList [])) in
  let+ params := liftE (iter parameters) in
  liftE (forE add_line params table_head).

(** The module's last three lines: parse [azure-pipelines.yml] and print
    the table. *)
Definition script : M unit :=
  let+ markdown_output := parse_yaml_to_markdown "azure-pipelines.yml" in
  print markdown_output.

(** The line of a parameter that is a mapping. *)
Definition line_of (d : dict value) : string :=
  "| " +:+ PyShow.str (dict_get_or d "name" (VStr ""))
  +:+ " | " +:+ PyShow.str (dict_get_or d "type" (VStr ""))
  +:+ " | " +:+ PyShow.str (dict_get_or d "default" (VStr ""))
  +:+ " | " +:+ PyShow.str (dict_get_or d "description" (VStr ""))
  +:+ " |" +:+ PyStr.nl.

End Script.
End ParsePipeline.

(** ** A library that loads from a table

    [Fixture.lib docs] loads the texts listed in [docs] to the values
    listed with them; any other text is a [YAMLError].  It quotes and
    dumps as [Example.lib] does. *)

Module Fixture.

Definition lib (docs : dict value) : PyLib :=
  {| str_repr := fun s => "'" +:+ s +:+ "'";
     yaml_dump := Example.dump;
     yaml_safe_load := fun text => dict_get docs text |}.

End Fixture.

(** ** The merge as the specification words it

    "Replace the entire span from the start marker through the end of the
    end-marker line": the replaced span ends where the line holding the
    end marker ends.  This definition follows those words, to be compared
    with [ADOPipelineDoc.writeFile]. *)

Module SinkSpec.
Import PyStr ADOPipelineDoc.

(** The first position at or after [i] where a line of [s] ends: at a
    newline, or at the end of the text. *)
Fixpoint line_end (s : string) (i : nat) : nat :=
  match s with
  | EmptyString => 0%nat
  | String a s' =>
      match i with
      | S i' => S (line_end s' i')
      | O => if Ascii.eqb a (ascii_of_N 10) then 0%nat else S (line_end s' 0)
      end
  end.

Definition merge_through_line_end (c : string) (table_rows : list string) : string :=
  upto c (find mdStartStr c)
    +:+ join nl table_rows
    +:+ drop (line_end c (Z.to_nat (find mdEndStr c))) c.

End SinkSpec.

(** * Properties *)

(** ** Strings *)

Module PyStrFacts.
Import PyStr.

Lemma app_cons a (s t : string) : String a s +:+ t = String a (s +:+ t).
Proof. reflexivity. Qed.

Lemma app_nil_l (t : string) : "" +:+ t = t.
Proof. reflexivity. Qed.

Ltac norm := simpl; rewrite ?app_cons, ?app_nil_l; simpl.

Lemma take_drop n s : take n s +:+ drop n s = s.
Proof.
  revert s; induction n as [|n IH]; intros [|a s]; norm; try reflexivity.
  f_equal. apply IH.
Qed.

Lemma drop_drop n m s : drop n (drop m s) = drop (m + n) s.
Proof.
  revert s; induction m as [|m IH]; intros s; simpl.
  - reflexivity.
  - destruct s as [|a s]; [now destruct n | apply IH].
Qed.

Lemma app_assoc (a b c : string) : (a +:+ b) +:+ c = a +:+ (b +:+ c).
Proof. induction a as [|x a IH]; norm; [reflexivity | f_equal; exact IH]. Qed.

Lemma app_nil_r (a : string) : a +:+ "" = a.
Proof. induction a as [|x a IH]; norm; [reflexivity | f_equal; exact IH]. Qed.

Lemma length_app (a b : string) :
  String.length (a +:+ b) = (String.length a + String.length b)%nat.
Proof. induction a as [|x a IH]; norm; [reflexivity | f_equal; exact IH]. Qed.

Lemma take_app_length (a b : string) : take (String.length a) (a +:+ b) = a.
Proof. induction a as [|x a IH]; norm; [now destruct b | f_equal; exact IH]. Qed.

Lemma drop_app_length (a b : string) : drop (String.length a) (a +:+ b) = b.
Proof. induction a as [|x a IH]; norm; [reflexivity | exact IH]. Qed.

Lemma drop_app_ge n (a b : string) :
  (String.length a <= n)%nat ->
  drop n (a +:+ b) = drop (n - String.length a) b.
Proof.
  revert n; induction a as [|x a IH]; intros n Hn; norm; simpl in Hn.
  - now rewrite Nat.sub_0_r.
  - destruct n as [|n]; [lia |]. simpl. apply IH. lia.
Qed.

Lemma drop_app_lt n (a b : string) :
  (n <= String.length a)%nat -> drop n (a +:+ b) = drop n a +:+ b.
Proof.
  revert n; induction a as [|x a IH]; intros n Hn; norm; simpl in Hn.
  - assert (n = 0%nat) as -> by lia. reflexivity.
  - destruct n as [|n]; [reflexivity |]. simpl. apply IH. lia.
Qed.

Lemma drop_ge n s : (String.length s <= n)%nat -> drop n s = "".
Proof.
  revert s; induction n as [|n IH]; intros [|a s] Hn; simpl in *;
    try reflexivity; try lia.
  apply IH. lia.
Qed.

Lemma length_take n s : String.length (take n s) = Nat.min n (String.length s).
Proof.
  revert s; induction n as [|n IH]; intros [|a s]; simpl; try reflexivity.
  f_equal. apply IH.
Qed.

Lemma length_drop n s : String.length (drop n s) = (String.length s - n)%nat.
Proof.
  revert s; induction n as [|n IH]; intros [|a s]; simpl; try reflexivity.
  apply IH.
Qed.

Lemma startswith_app sub t : startswith sub (sub +:+ t) = true.
Proof.
  induction sub as [|a sub IH]; norm; [reflexivity |].
  now rewrite Ascii.eqb_refl.
Qed.

Lemma startswith_inv sub s :
  startswith sub s = true -> s = sub +:+ drop (String.length sub) s.
Proof.
  revert s; induction sub as [|a sub IH]; intros s Hs; simpl in *.
  - reflexivity.
  - destruct s as [|b s]; [discriminate |].
    apply andb_true_iff in Hs as [Hab Hs].
    apply Ascii.eqb_eq in Hab as ->. norm. f_equal. now apply IH.
Qed.

(** [find] answers [-1] or a position inside the string. *)
Lemma find_range sub s : -1 <= find sub s <= len s.
Proof.
  unfold len. induction s as [|a s IH].
  - simpl. destruct (startswith sub ""); simpl; lia.
  - cbn [find]. destruct (startswith sub (String a s)); [simpl; lia |].
    destruct (Z.eqb_spec (find sub s) (-1)); simpl String.length; lia.
Qed.

(** At the position [find] answers, the string continues with [sub]. *)
Lemma find_occurs sub s :
  0 <= find sub s -> startswith sub (drop (Z.to_nat (find sub s)) s) = true.
Proof.
  induction s as [|a s IH]; cbn [find].
  - destruct (startswith sub "") eqn:E; [intros _; exact E | lia].
  - destruct (startswith sub (String a s)) eqn:E; [intros _; exact E |].
    pose proof (find_range sub s) as Hr.
    destruct (Z.eqb_spec (find sub s) (-1)) as [Hm | Hm]; [lia |].
    intros _.
    replace (Z.to_nat (find sub s + 1)) with (S (Z.to_nat (find sub s))) by lia.
    simpl. apply IH. lia.
Qed.

(** No occurrence starts before the position [find] answers. *)
Lemma find_first sub s n :
  startswith sub (drop n s) = true -> 0 <= find sub s <= Z.of_nat n.
Proof.
  revert n; induction s as [|a s IH]; intros n Hn; cbn [find].
  - assert (drop n "" = "") as E by now destruct n.
    rewrite E in Hn. rewrite Hn. lia.
  - destruct (startswith sub (String a s)) eqn:E; [lia |].
    destruct n as [|n]; [simpl in Hn; congruence |].
    simpl in Hn. specialize (IH n Hn).
    destruct (Z.eqb_spec (find sub s) (-1)); lia.
Qed.

Lemma bound_nonneg s i : 0 <= i -> bound s i = Z.to_nat i.
Proof. unfold bound. intros Hi. destruct (Z.ltb_spec i 0); [lia | reflexivity]. Qed.

End PyStrFacts.

(** ** Universal newlines *)

Module NewlineFacts.
Import PyStr PyStrFacts.

Lemma un_cons_other a s :
  Ascii.eqb a cr = false ->
  universal_newlines (String a s) = String a (universal_newlines s).
Proof. intros Ha. cbn [universal_newlines]. now rewrite Ha. Qed.

Lemma un_cr_lf s :
  universal_newlines (String cr (String lf s)) = String lf (universal_newlines s).
Proof. reflexivity. Qed.

Lemma un_cr_other s :
  startswith nl s = false ->
  universal_newlines (String cr s) = String lf (universal_newlines s).
Proof.
  intros Hs. cbn [universal_newlines]. rewrite Ascii.eqb_refl.
  destruct s as [|b s]; [reflexivity |].
  cbn [startswith nl] in Hs. rewrite andb_true_r in Hs.
  fold lf in Hs. rewrite Ascii.eqb_sym in Hs. now rewrite Hs.
Qed.

(** Induction along the way [universal_newlines] reads a text. *)
Lemma un_ind (P : string -> Prop) :
  P "" ->
  (forall a s, Ascii.eqb a cr = false -> P s -> P (String a s)) ->
  (forall s, P s -> P (String cr (String lf s))) ->
  (forall s, startswith nl s = false -> P s -> P (String cr s)) ->
  forall s, P s.
Proof.
  intros H0 Hother Hcrlf Hcr s.
  enough (forall n s, (String.length s <= n)%nat -> P s) by eauto.
  clear s. induction n as [|n IH]; intros s Hn.
  - destruct s; simpl in Hn; [exact H0 | lia].
  - destruct s as [|a s]; [exact H0 |]. simpl in Hn.
    destruct (Ascii.eqb a cr) eqn:Ea.
    + apply Ascii.eqb_eq in Ea as ->.
      destruct s as [|b s]; [apply Hcr; [reflexivity | exact H0] |].
      destruct (Ascii.eqb b lf) eqn:Eb.
      * apply Ascii.eqb_eq in Eb as ->. apply Hcrlf. apply IH. simpl in Hn. lia.
      * apply Hcr; [| apply IH; lia].
        cbn [startswith nl]. fold lf. rewrite Ascii.eqb_sym, Eb. reflexivity.
    + apply Hother; [exact Ea | apply IH; lia].
Qed.

(** A text that reads as itself has no CR, and conversely. *)
Lemma un_fixed_cons a s :
  universal_newlines (String a s) = String a s ->
  Ascii.eqb a cr = false /\ universal_newlines s = s.
Proof.
  intros Hu. destruct (Ascii.eqb a cr) eqn:Ea.
  - apply Ascii.eqb_eq in Ea as ->. cbn [universal_newlines] in Hu.
    rewrite Ascii.eqb_refl in Hu. discriminate.
  - rewrite (un_cons_other _ _ Ea) in Hu. split; [reflexivity | congruence].
Qed.

Lemma un_idem s : universal_newlines (universal_newlines s) = universal_newlines s.
Proof.
  induction s as [| a s Ea IH | s IH | s Hs IH] using un_ind.
  - reflexivity.
  - rewrite (un_cons_other _ _ Ea), (un_cons_other _ _ Ea). now rewrite IH.
  - rewrite un_cr_lf, un_cons_other by reflexivity. now rewrite IH.
  - rewrite (un_cr_other _ Hs), un_cons_other by reflexivity. now rewrite IH.
Qed.

Lemma un_app_fixed a b :
  universal_newlines a = a ->
  universal_newlines (a +:+ b) = a +:+ universal_newlines b.
Proof.
  induction a as [|x a IH]; intros Ha; [reflexivity |].
  apply un_fixed_cons in Ha as [Hx Ha].
  rewrite app_cons, (un_cons_other _ _ Hx), IH by exact Ha. reflexivity.
Qed.

Lemma un_fixed_app a b :
  universal_newlines (a +:+ b) = a +:+ b ->
  universal_newlines a = a /\ universal_newlines b = b.
Proof.
  induction a as [|x a IH]; intros Hu; [split; [reflexivity | exact Hu] |].
  rewrite app_cons in Hu. apply un_fixed_cons in Hu as [Hx Hu].
  destruct (IH Hu) as [Ha Hb]. split; [| exact Hb].
  now rewrite (un_cons_other _ _ Hx), Ha.
Qed.

Lemma un_take_fixed n s :
  universal_newlines s = s -> universal_newlines (take n s) = take n s.
Proof.
  revert s; induction n as [|n IH]; intros [|a s] Hs; try reflexivity.
  apply un_fixed_cons in Hs as [Ha Hs]. cbn [take].
  rewrite (un_cons_other _ _ Ha), IH by exact Hs. reflexivity.
Qed.

Lemma un_drop_fixed n s :
  universal_newlines s = s -> universal_newlines (drop n s) = drop n s.
Proof.
  revert s; induction n as [|n IH]; intros [|a s] Hs; try exact Hs.
  apply un_fixed_cons in Hs as [Ha Hs]. cbn [drop]. now apply IH.
Qed.

(** Reading a text in two parts, when the second part does not begin with
    LF. *)
Lemma startswith_nl_app a b :
  startswith nl a = false ->
  startswith nl b = false ->
  startswith nl (a +:+ b) = false.
Proof.
  intros Ha Hb. destruct a as [|x a]; [exact Hb |].
  rewrite app_cons. cbn [startswith nl] in *. now rewrite andb_true_r in *.
Qed.

Lemma un_app a b :
  startswith nl b = false ->
  universal_newlines (a +:+ b) = universal_newlines a +:+ universal_newlines b.
Proof.
  intros Hb. induction a as [| x a Ex IH | a IH | a Ha IH] using un_ind.
  - reflexivity.
  - rewrite app_cons, !(un_cons_other _ _ Ex), IH. reflexivity.
  - rewrite !app_cons, !un_cr_lf, IH. reflexivity.
  - rewrite app_cons, (un_cr_other _ Ha), un_cr_other, IH; [reflexivity |].
    now apply startswith_nl_app.
Qed.

(** A text of one line reads as itself and does not begin with LF. *)
Lemma one_line_cons a s :
  one_line (String a s) = true ->
  Ascii.eqb a cr = false /\ Ascii.eqb a lf = false /\ one_line s = true.
Proof.
  cbn [one_line]. intros Hs.
  apply andb_true_iff in Hs as [Hs Hrest]. apply andb_true_iff in Hs as [Hc Hl].
  apply negb_true_iff in Hc, Hl. auto.
Qed.

Lemma un_one_line s : one_line s = true -> universal_newlines s = s.
Proof.
  induction s as [|a s IH]; intros Hs; [reflexivity |].
  apply one_line_cons in Hs as (Hc & _ & Hs).
  rewrite (un_cons_other _ _ Hc), IH by exact Hs. reflexivity.
Qed.

Lemma one_line_not_nl sub t :
  one_line sub = true -> sub <> "" -> startswith nl (sub +:+ t) = false.
Proof.
  intros Hs Hne. destruct sub as [|a sub]; [congruence |].
  apply one_line_cons in Hs as (_ & Hl & _).
  rewrite app_cons. cbn [startswith nl]. fold lf.
  rewrite Ascii.eqb_sym, Hl. reflexivity.
Qed.

(** A text of one line starts the text as read exactly when it starts
    the text as stored. *)
Lemma startswith_un sub s :
  one_line sub = true ->
  startswith sub (universal_newlines s) = startswith sub s.
Proof.
  revert s; induction sub as [|x sub IH]; intros s Hsub; [reflexivity |].
  apply one_line_cons in Hsub as (Hc & Hl & Hsub).
  destruct s as [|b s]; [reflexivity |].
  destruct (Ascii.eqb b cr) eqn:Eb.
  - apply Ascii.eqb_eq in Eb as ->.
    cbn [universal_newlines startswith]. rewrite Ascii.eqb_refl. cbn [startswith].
    now rewrite Hc, Hl.
  - rewrite (un_cons_other _ _ Eb). cbn [startswith]. now rewrite IH.
Qed.

(** Where [find] stops on a text that begins with a character other than
    the first of [sub]. *)
Lemma find_cons sub a s :
  startswith sub (String a s) = false ->
  find sub (String a s) = if find sub s =? -1 then -1 else find sub s + 1.
Proof. intros Hs. cbn [find]. now rewrite Hs. Qed.

Lemma startswith_head_ne sub a s :
  one_line sub = true -> sub <> "" ->
  Ascii.eqb a cr = true \/ Ascii.eqb a lf = true ->
  startswith sub (String a s) = false.
Proof.
  intros Hsub Hne Ha. destruct sub as [|x sub]; [congruence |].
  apply one_line_cons in Hsub as (Hc & Hl & _).
  cbn [startswith].
  destruct Ha as [Ha | Ha]; apply Ascii.eqb_eq in Ha as ->;
    [rewrite Hc | rewrite Hl]; reflexivity.
Qed.

(** The position in the text as read of a position in the text as
    stored. *)
Lemma read_position_cons_other a s p :
  Ascii.eqb a cr = false ->
  String.length (universal_newlines (take (S p) (String a s)))
  = S (String.length (universal_newlines (take p s))).
Proof. intros Ha. cbn [take]. now rewrite (un_cons_other _ _ Ha). Qed.

Lemma startswith_nl_take p s :
  startswith nl s = false -> startswith nl (take p s) = false.
Proof.
  intros Hs. destruct p as [|p], s as [|b s]; try reflexivity.
  cbn [take startswith nl] in *. exact Hs.
Qed.

Lemma read_position_cr s p :
  startswith nl s = false ->
  String.length (universal_newlines (take (S p) (String cr s)))
  = S (String.length (universal_newlines (take p s))).
Proof.
  intros Hs. cbn [take].
  now rewrite (un_cr_other _ (startswith_nl_take p s Hs)).
Qed.

(** [find] on the text as read, by [find] on the text as stored: there
    is an occurrence in the one exactly when there is one in the other,
    and the first is at the place the first has after reading. *)
Lemma find_un sub s :
  one_line sub = true -> sub <> "" ->
  find sub (universal_newlines s) =
    if find sub s =? -1 then -1
    else len (universal_newlines (take (Z.to_nat (find sub s)) s)).
Proof.
  intros Hsub Hne. unfold len.
  induction s as [| a s Ea IH | s IH | s Hs IH] using un_ind.
  - cbn [universal_newlines]. destruct sub; [congruence | reflexivity].
  - rewrite (un_cons_other _ _ Ea).
    destruct (startswith sub (String a s)) eqn:Eh.
    + assert (Eu : startswith sub (String a (universal_newlines s)) = true).
      { rewrite <- (un_cons_other _ _ Ea), startswith_un by exact Hsub. exact Eh. }
      cbn [find]. rewrite Eh, Eu. reflexivity.
    + assert (Eu : startswith sub (String a (universal_newlines s)) = false).
      { rewrite <- (un_cons_other _ _ Ea), startswith_un by exact Hsub. exact Eh. }
      rewrite (find_cons _ _ _ Eh), (find_cons _ _ _ Eu), IH.
      pose proof (find_range sub s) as Hr.
      destruct (Z.eqb_spec (find sub s) (-1)) as [E | E]; [reflexivity |].
      replace (Z.to_nat (find sub s + 1)) with (S (Z.to_nat (find sub s))) by lia.
      rewrite (read_position_cons_other _ _ _ Ea).
      destruct (Z.eqb_spec (Z.of_nat (String.length
                  (universal_newlines (take (Z.to_nat (find sub s)) s)))) (-1));
        [lia |].
      destruct (Z.eqb_spec (find sub s + 1) (-1)); lia.
  - rewrite un_cr_lf.
    assert (E1 : startswith sub (String cr (String lf s)) = false)
      by (apply startswith_head_ne; auto).
    assert (E2 : startswith sub (String lf s) = false)
      by (apply startswith_head_ne; auto).
    assert (E3 : startswith sub (String lf (universal_newlines s)) = false)
      by (apply startswith_head_ne; auto).
    rewrite (find_cons _ _ _ E1), (find_cons _ _ _ E2), (find_cons _ _ _ E3), IH.
    pose proof (find_range sub s) as Hr.
    destruct (Z.eqb_spec (find sub s) (-1)) as [E | E]; [reflexivity |].
    destruct (Z.eqb_spec (find sub s + 1) (-1)); [lia |].
    destruct (Z.eqb_spec (find sub s + 1 + 1) (-1)); [lia |].
    replace (Z.to_nat (find sub s + 1 + 1)) with (S (S (Z.to_nat (find sub s)))) by lia.
    cbn [take]. rewrite un_cr_lf. cbn [String.length].
    destruct (Z.eqb_spec (Z.of_nat (String.length
                (universal_newlines (take (Z.to_nat (find sub s)) s)))) (-1));
      lia.
  - rewrite (un_cr_other _ Hs).
    assert (E1 : startswith sub (String cr s) = false)
      by (apply startswith_head_ne; auto).
    assert (E3 : startswith sub (String lf (universal_newlines s)) = false)
      by (apply startswith_head_ne; auto).
    rewrite (find_cons _ _ _ E1), (find_cons _ _ _ E3), IH.
    pose proof (find_range sub s) as Hr.
    destruct (Z.eqb_spec (find sub s) (-1)) as [E | E]; [reflexivity |].
    destruct (Z.eqb_spec (find sub s + 1) (-1)); [lia |].
    replace (Z.to_nat (find sub s + 1)) with (S (Z.to_nat (find sub s))) by lia.
    rewrite (read_position_cr _ _ Hs).
    destruct (Z.eqb_spec (Z.of_nat (String.length
                (universal_newlines (take (Z.to_nat (find sub s)) s)))) (-1));
      lia.
Qed.

(** Reading never makes a text longer. *)
Lemma un_length_le s :
  (String.length (universal_newlines s) <= String.length s)%nat.
Proof.
  induction s as [| a s Ea IH | s IH | s Hs IH] using un_ind.
  - reflexivity.
  - rewrite (un_cons_other _ _ Ea). cbn [String.length]. lia.
  - rewrite un_cr_lf. cbn [String.length]. lia.
  - rewrite (un_cr_other _ Hs). cbn [String.length]. lia.
Qed.

(** Reading neither makes nor removes an occurrence. *)
Lemma find_un_none sub s :
  one_line sub = true -> sub <> "" ->
  find sub (universal_newlines s) = -1 <-> find sub s = -1.
Proof.
  intros Hsub Hne. rewrite (find_un _ _ Hsub Hne). unfold len.
  destruct (Z.eqb_spec (find sub s) (-1)); split; intros; lia.
Qed.

(** Reading keeps positions in order. *)
Lemma read_position_mono s : forall p q,
  (p <= q)%nat ->
  (String.length (universal_newlines (take p s))
   <= String.length (universal_newlines (take q s)))%nat.
Proof.
  induction s as [| a s Ea IH | s IH | s Hs IH] using un_ind; intros p q Hpq.
  - now destruct p, q.
  - destruct p as [|p]; [cbn [take universal_newlines String.length]; lia |].
    destruct q as [|q]; [lia |].
    rewrite !(read_position_cons_other _ _ _ Ea).
    apply le_n_S, IH. lia.
  - destruct p as [|p]; [cbn [take universal_newlines String.length]; lia |].
    destruct q as [|q]; [lia |].
    destruct p as [|p].
    + destruct q as [|q]; [lia |]. cbn [take]. rewrite un_cr_lf.
      cbn; lia.
    + destruct q as [|q]; [lia |]. cbn [take]. rewrite !un_cr_lf.
      cbn [String.length]. apply le_n_S, IH. lia.
  - destruct p as [|p]; [cbn [take universal_newlines String.length]; lia |].
    destruct q as [|q]; [lia |].
    rewrite !(read_position_cr _ _ Hs). apply le_n_S, IH. lia.
Qed.

Lemma find_un_order sub1 sub2 s :
  one_line sub1 = true -> sub1 <> "" ->
  one_line sub2 = true -> sub2 <> "" ->
  0 <= find sub1 s <= find sub2 s ->
  0 <= find sub1 (universal_newlines s) <= find sub2 (universal_newlines s).
Proof.
  intros H1 N1 H2 N2 [H0 Hle].
  rewrite (find_un _ _ H1 N1), (find_un _ _ H2 N2). unfold len.
  destruct (Z.eqb_spec (find sub1 s) (-1)); [lia |].
  destruct (Z.eqb_spec (find sub2 s) (-1)); [lia |].
  pose proof (read_position_mono s (Z.to_nat (find sub1 s)) (Z.to_nat (find sub2 s))
                ltac:(lia)).
  lia.
Qed.

End NewlineFacts.

(** ** [find] *)

Module FindFacts.
Import PyStr PyStrFacts.

(** An occurrence with none before it is where [find] stops. *)
Lemma find_at sub s p :
  startswith sub (drop p s) = true ->
  (forall q, (q < p)%nat -> startswith sub (drop q s) = false) ->
  find sub s = Z.of_nat p.
Proof.
  intros Hp Hno.
  pose proof (find_first sub s p Hp) as [H0 Hle].
  pose proof (find_occurs sub s H0) as Hocc.
  destruct (Z.eq_dec (find sub s) (Z.of_nat p)) as [E | Hne]; [exact E |].
  rewrite (Hno (Z.to_nat (find sub s))) in Hocc by lia. discriminate.
Qed.

(** Before the index [find] answers, and everywhere when it answers
    [-1], there is no occurrence. *)
Lemma find_none_before sub s q :
  find sub s = -1 \/ Z.of_nat q < find sub s ->
  startswith sub (drop q s) = false.
Proof.
  intros Hq. destruct (startswith sub (drop q s)) eqn:E; [| reflexivity].
  pose proof (find_first sub s q E). lia.
Qed.

(** Whether [x ++ y] starts with [sub] is decided inside [x] when [x] is
    long enough. *)
Lemma startswith_app_long sub x y :
  (String.length sub <= String.length x)%nat ->
  startswith sub (x +:+ y) = startswith sub x.
Proof.
  revert x; induction sub as [|a sub IH]; intros x Hx; [reflexivity |].
  destruct x as [|b x]; simpl in Hx; [lia |].
  rewrite app_cons. simpl. rewrite IH by lia. reflexivity.
Qed.

(** If [x ++ y] starts with [sub] and [x] is short, [y] starts with the
    rest of [sub]. *)
Lemma startswith_app_short sub x y :
  (String.length x <= String.length sub)%nat ->
  startswith sub (x +:+ y) = true ->
  startswith (drop (String.length x) sub) y = true.
Proof.
  revert sub; induction x as [|b x IH]; intros sub Hx Hs.
  - exact Hs.
  - destruct sub as [|a sub]; simpl in Hx; [lia |].
    rewrite app_cons in Hs. simpl in Hs.
    apply andb_true_iff in Hs as [_ Hs]. simpl. apply IH; [lia | exact Hs].
Qed.

(** Whether [x ++ y] starts with [sub] depends on [y] only through the
    characters of [y] that [sub] reaches. *)
Lemma startswith_app_agree sub x y y' :
  take (String.length sub - String.length x) y
  = take (String.length sub - String.length x) y' ->
  startswith sub (x +:+ y) = startswith sub (x +:+ y').
Proof.
  revert sub; induction x as [|b x IH]; intros sub Hy.
  - rewrite !app_nil_l. simpl in Hy. rewrite Nat.sub_0_r in Hy.
    revert y y' Hy. induction sub as [|a sub IHs]; intros y y' Hy; [reflexivity |].
    destruct y as [|c y], y' as [|c' y']; simpl in *; try reflexivity;
      try discriminate.
    injection Hy as -> Hy. now rewrite (IHs y y' Hy).
  - destruct sub as [|a sub]; [reflexivity |].
    rewrite !app_cons. simpl. f_equal. apply IH. exact Hy.
Qed.

Lemma take_app_le n (a b : string) :
  (n <= String.length a)%nat -> take n (a +:+ b) = take n a.
Proof.
  revert a; induction n as [|n IH]; intros a Hn; [now destruct a, b |].
  destruct a as [|x a]; simpl in Hn; [lia |].
  rewrite app_cons. simpl. f_equal. apply IH. lia.
Qed.

Lemma take_all n s : (String.length s <= n)%nat -> take n s = s.
Proof.
  revert s; induction n as [|n IH]; intros [|a s] Hn; simpl in *;
    try reflexivity; try lia.
  f_equal. apply IH. lia.
Qed.

End FindFacts.

(** ** The sink: [writeFile] *)

Module SinkFacts.
Import PyStr PyStrFacts NewlineFacts FindFacts ADOPipelineDoc.

Lemma readFile_ok path w c :
  files w !! path = Some (File c true) ->
  readFile path w = (Ok (universal_newlines c), w).
Proof. intros Hf. unfold readFile, tryM, open_read. now rewrite Hf. Qed.

Lemma readFile_missing path w :
  files w !! path = None ->
  readFile path w = (Raise (ADOPipelineDocException ConfigNotFound), w).
Proof. intros Hf. unfold readFile, tryM, open_read. now rewrite Hf. Qed.

Lemma readFile_denied path w c :
  files w !! path = Some (File c false) ->
  readFile path w = (Raise (ADOPipelineDocException AccessDenied), w).
Proof. intros Hf. unfold readFile, tryM, open_read. now rewrite Hf. Qed.

Lemma readFile_undecodable path w :
  files w !! path = Some Undecodable ->
  readFile path w = (Raise UnicodeDecodeError, w).
Proof. intros Hf. unfold readFile, tryM, open_read. now rewrite Hf. Qed.

Lemma readFile_directory path w :
  files w !! path = Some Directory ->
  readFile path w = (Raise IsADirectoryError, w).
Proof. intros Hf. unfold readFile, tryM, open_read. now rewrite Hf. Qed.

(** The markers are texts of one line. *)
Lemma start_marker_plain : one_line mdStartStr = true /\ mdStartStr <> "".
Proof. split; [reflexivity | discriminate]. Qed.

Lemma end_marker_plain : one_line mdEndStr = true /\ mdEndStr <> "".
Proof. split; [reflexivity | discriminate]. Qed.

Lemma find_start_read c :
  find mdStartStr (universal_newlines c) = -1 <-> find mdStartStr c = -1.
Proof. apply find_un_none; apply start_marker_plain. Qed.

Lemma find_end_read c :
  find mdEndStr (universal_newlines c) = -1 <-> find mdEndStr c = -1.
Proof. apply find_un_none; apply end_marker_plain. Qed.

(** What [writeFile] does to a readable target, by the two indices in the
    text it reads. *)
Lemma writeFile_existing path table_rows w c :
  files w !! path = Some (File c true) ->
  writeFile (Some path) table_rows w =
    let content := universal_newlines c in
    let start_index := find mdStartStr content in
    let end_index := find mdEndStr content in
    if (start_index =? -1) && (end_index >? -1)
    then (Raise (ADOPipelineDocException DanglingEndMarker), w)
    else if (start_index >? -1) && (end_index =? -1)
    then (Raise (ADOPipelineDocException DanglingStartMarker), w)
    else if (start_index =? -1) && (end_index =? -1)
    then put_file path (content +:+ nl +:+ join nl table_rows) w
    else put_file path
           (upto content start_index +:+ join nl table_rows
              +:+ from content (end_index + len mdEndStr)) w.
Proof.
  intros Hf. unfold writeFile, tryM, bindM. rewrite (readFile_ok _ _ _ Hf).
  cbv zeta.
  destruct (find mdStartStr (universal_newlines c) =? -1),
    (find mdEndStr (universal_newlines c) >? -1),
    (find mdStartStr (universal_newlines c) >? -1),
    (find mdEndStr (universal_newlines c) =? -1); reflexivity.
Qed.

(** An end marker and no start marker: "No start comment found". *)
Lemma end_marker_alone path table_rows w c :
  files w !! path = Some (File c true) ->
  find mdStartStr c = -1 -> find mdEndStr c <> -1 ->
  writeFile (Some path) table_rows w =
    (Raise (ADOPipelineDocException DanglingEndMarker), w).
Proof.
  intros Hf Hs He. rewrite (writeFile_existing _ _ _ _ Hf). cbv zeta.
  apply find_start_read in Hs. rewrite <- find_end_read in He.
  pose proof (find_range mdEndStr (universal_newlines c)).
  rewrite Hs.
  replace (find mdEndStr (universal_newlines c) >? -1) with true; [reflexivity |].
  symmetry. apply Z.gtb_lt. lia.
Qed.

(** A start marker and no end marker: "No end comment found". *)
Lemma start_marker_alone path table_rows w c :
  files w !! path = Some (File c true) ->
  find mdStartStr c <> -1 -> find mdEndStr c = -1 ->
  writeFile (Some path) table_rows w =
    (Raise (ADOPipelineDocException DanglingStartMarker), w).
Proof.
  intros Hf Hs He. rewrite (writeFile_existing _ _ _ _ Hf). cbv zeta.
  apply find_end_read in He. rewrite <- find_start_read in Hs.
  pose proof (find_range mdStartStr (universal_newlines c)).
  rewrite He.
  replace (find mdStartStr (universal_newlines c) =? -1) with false
    by (symmetry; apply Z.eqb_neq; lia).
  replace (find mdStartStr (universal_newlines c) >? -1) with true
    by (symmetry; apply Z.gtb_lt; lia).
  reflexivity.
Qed.

(** No marker at all: the block goes after the text that was read. *)
Lemma no_marker_appends path table_rows w c :
  files w !! path = Some (File c true) ->
  find mdStartStr c = -1 -> find mdEndStr c = -1 ->
  writeFile (Some path) table_rows w =
    (Ok tt,
     World (<[path := File (universal_newlines c +:+ nl +:+ join nl table_rows) true]>
              (files w))
           (stdout w)).
Proof.
  intros Hf Hs He. rewrite (writeFile_existing _ _ _ _ Hf). cbv zeta.
  apply find_start_read in Hs. apply find_end_read in He.
  rewrite Hs, He. reflexivity.
Qed.

(** Both markers: the text before the start index, the block, the text
    after the end marker, all in the text that was read. *)
Lemma both_markers_splice path table_rows w c :
  files w !! path = Some (File c true) ->
  find mdStartStr c <> -1 -> find mdEndStr c <> -1 ->
  writeFile (Some path) table_rows w =
    (Ok tt,
     World (<[path :=
                File (upto (universal_newlines c)
                        (find mdStartStr (universal_newlines c))
                      +:+ join nl table_rows
                      +:+ from (universal_newlines c)
                            (find mdEndStr (universal_newlines c) + len mdEndStr))
                     true]>
              (files w))
           (stdout w)).
Proof.
  intros Hf Hs He. rewrite (writeFile_existing _ _ _ _ Hf). cbv zeta.
  rewrite <- find_start_read in Hs. rewrite <- find_end_read in He.
  replace (find mdStartStr (universal_newlines c) =? -1) with false
    by (symmetry; apply Z.eqb_neq; lia).
  replace (find mdEndStr (universal_newlines c) =? -1) with false
    by (symmetry; apply Z.eqb_neq; lia).
  rewrite andb_false_r. reflexivity.
Qed.

(** The two markers cannot overlap: an end marker that starts at or after
    a start marker starts after its last character. *)
Lemma end_not_inside_start k t :
  (k < String.length mdStartStr)%nat ->
  startswith mdEndStr (drop k (mdStartStr +:+ t)) = false.
Proof.
  intros Hk. change (String.length mdStartStr) with 29%nat in Hk.
  do 29 (destruct k as [|k]; [reflexivity |]). lia.
Qed.

Lemma markers_apart c :
  0 <= find mdStartStr c <= find mdEndStr c ->
  find mdStartStr c + len mdStartStr <= find mdEndStr c.
Proof.
  intros [Hi Hij].
  pose proof (find_occurs mdStartStr c Hi) as Hs.
  pose proof (find_occurs mdEndStr c ltac:(lia)) as He.
  apply startswith_inv in Hs.
  set (i := Z.to_nat (find mdStartStr c)) in *.
  set (j := Z.to_nat (find mdEndStr c)) in *.
  replace j with (i + (j - i))%nat in He by lia.
  rewrite <- drop_drop, Hs in He.
  destruct (Nat.lt_ge_cases (j - i) (String.length mdStartStr)) as [Hlt | Hge].
  - rewrite end_not_inside_start in He by exact Hlt. discriminate.
  - unfold len. lia.
Qed.

(** The text a marked document splits into. *)
Lemma marked_span c :
  0 <= find mdStartStr c <= find mdEndStr c ->
  exists before inside after,
    c = before +:+ mdStartStr +:+ inside +:+ mdEndStr +:+ after
    /\ len before = find mdStartStr c
    /\ len (before +:+ mdStartStr +:+ inside) = find mdEndStr c.
Proof.
  intros Hij.
  pose proof (markers_apart c Hij) as Hapart.
  destruct Hij as [Hi Hij].
  pose proof (find_range mdStartStr c) as Hri.
  pose proof (find_range mdEndStr c) as Hrj.
  pose proof (find_occurs mdStartStr c Hi) as Hs.
  pose proof (find_occurs mdEndStr c ltac:(lia)) as He.
  apply startswith_inv in Hs. apply startswith_inv in He.
  set (i := Z.to_nat (find mdStartStr c)) in *.
  set (j := Z.to_nat (find mdEndStr c)) in *.
  set (ls := String.length mdStartStr) in *.
  set (le := String.length mdEndStr) in *.
  assert (Hls : len mdStartStr = Z.of_nat ls) by reflexivity.
  assert (Hj : j = (i + (ls + (j - i - ls)))%nat) by (unfold len in *; lia).
  exists (take i c), (take (j - i - ls) (drop ls (drop i c))), (drop (j + le) c).
  split.
  { rewrite <- (take_drop i c) at 1. f_equal.
    rewrite Hs at 1. f_equal.
    rewrite <- (take_drop (j - i - ls) (drop ls (drop i c))) at 1. f_equal.
    rewrite !drop_drop. rewrite <- Hj.
    rewrite He at 1. f_equal. now rewrite drop_drop. }
  split; [unfold len in *; rewrite length_take; lia |].
  unfold len in *.
  rewrite !length_app, !length_take, !length_drop. fold ls. lia.
Qed.

(** A marked document as it is read: the markers stay, the texts around
    them are read each on its own. *)
Lemma read_marked before inside after :
  universal_newlines (before +:+ mdStartStr +:+ inside +:+ mdEndStr +:+ after)
  = universal_newlines before +:+ mdStartStr +:+ universal_newlines inside
      +:+ mdEndStr +:+ universal_newlines after.
Proof.
  rewrite un_app by (apply one_line_not_nl; apply start_marker_plain).
  rewrite un_app_fixed by (apply un_one_line; apply start_marker_plain).
  rewrite un_app by (apply one_line_not_nl; apply end_marker_plain).
  rewrite un_app_fixed by (apply un_one_line; apply end_marker_plain).
  reflexivity.
Qed.

Lemma read_upto_end before inside :
  universal_newlines (before +:+ mdStartStr +:+ inside)
  = universal_newlines before +:+ mdStartStr +:+ universal_newlines inside.
Proof.
  rewrite un_app by (apply one_line_not_nl; apply start_marker_plain).
  rewrite un_app_fixed by (apply un_one_line; apply start_marker_plain).
  reflexivity.
Qed.

(** Merging into a marked document: what is written is the text before
    the start marker as it is read, the block, and the text after the end
    marker as it is read. *)
Lemma splice_marked path table_rows w before inside after :
  let c := before +:+ mdStartStr +:+ inside +:+ mdEndStr +:+ after in
  files w !! path = Some (File c true) ->
  len before = find mdStartStr c ->
  len (before +:+ mdStartStr +:+ inside) = find mdEndStr c ->
  writeFile (Some path) table_rows w =
    (Ok tt,
     World (<[path := File (universal_newlines before +:+ join nl table_rows
                              +:+ universal_newlines after) true]>
              (files w))
           (stdout w)).
Proof.
  intros c Hf Hi Hj.
  destruct start_marker_plain as [Hs1 Hs2], end_marker_plain as [He1 He2].
  assert (Hi' : find mdStartStr (universal_newlines c)
                = len (universal_newlines before)).
  { rewrite (find_un _ _ Hs1 Hs2), <- Hi. unfold len.
    destruct (Z.eqb_spec (Z.of_nat (String.length before)) (-1)); [lia |].
    rewrite Nat2Z.id. unfold c. now rewrite take_app_length. }
  assert (Hj' : find mdEndStr (universal_newlines c)
                = len (universal_newlines before +:+ mdStartStr
                         +:+ universal_newlines inside)).
  { rewrite (find_un _ _ He1 He2), <- Hj. unfold len.
    destruct (Z.eqb_spec (Z.of_nat (String.length (before +:+ mdStartStr +:+ inside)))
                (-1)); [lia |].
    rewrite Nat2Z.id. unfold c.
    replace (before +:+ mdStartStr +:+ inside +:+ mdEndStr +:+ after)
      with ((before +:+ mdStartStr +:+ inside) +:+ mdEndStr +:+ after)
      by now rewrite !app_assoc.
    now rewrite take_app_length, read_upto_end. }
  rewrite (both_markers_splice _ _ _ _ Hf) by (unfold len in *; lia).
  rewrite Hi', Hj'. unfold c. rewrite read_marked.
  unfold upto, from, len. rewrite !bound_nonneg by lia.
  rewrite Nat2Z.id.
  replace (Z.to_nat
             (Z.of_nat (String.length (universal_newlines before +:+ mdStartStr
                                         +:+ universal_newlines inside))
              + Z.of_nat (String.length mdEndStr)))
    with (String.length ((universal_newlines before +:+ mdStartStr
                            +:+ universal_newlines inside) +:+ mdEndStr))
    by (rewrite (length_app _ mdEndStr); lia).
  rewrite take_app_length.
  replace (universal_newlines before +:+ mdStartStr +:+ universal_newlines inside
             +:+ mdEndStr +:+ universal_newlines after)
    with (((universal_newlines before +:+ mdStartStr +:+ universal_newlines inside)
             +:+ mdEndStr) +:+ universal_newlines after)
    by now rewrite !app_assoc.
  now rewrite drop_app_length.
Qed.

(** [C2], as amended.  When the first start marker of a readable target
    comes at or before its first end marker, the document splits into the
    text before the start marker, the start marker, the text between, the
    end marker, and the text after it.  Merging writes the text before,
    the newline-joined block and the text after, and nothing else; the two
    texts are written as they are read, in text mode, so in them every
    CR LF and every other CR has become LF and every other character is
    kept.  For a target without CR they are kept byte for byte.  Other
    files and standard output are untouched. *)
Theorem C2_merge_replaces_marked_span path table_rows w c :
  files w !! path = Some (File c true) ->
  0 <= find mdStartStr c <= find mdEndStr c ->
  exists before inside after : string,
    c = before +:+ mdStartStr +:+ inside +:+ mdEndStr +:+ after
    /\ len before = find mdStartStr c
    /\ len (before +:+ mdStartStr +:+ inside) = find mdEndStr c
    /\ writeFile (Some path) table_rows w =
         (Ok tt,
          World (<[path := File (universal_newlines before +:+ join nl table_rows
                                   +:+ universal_newlines after) true]>
                   (files w))
                (stdout w))
    /\ (universal_newlines c = c ->
        universal_newlines before = before /\ universal_newlines after = after).
Proof.
  intros Hf Hij.
  destruct (marked_span c Hij) as (before & inside & after & Hc & Hi & Hj).
  exists before, inside, after.
  split; [exact Hc |]. split; [exact Hi |]. split; [exact Hj |].
  split.
  - subst c. exact (splice_marked path table_rows w before inside after Hf Hi Hj).
  - intros Hfix. rewrite Hc in Hfix.
    apply un_fixed_app in Hfix as [Hb Hfix]. split; [exact Hb |].
    apply un_fixed_app in Hfix as [_ Hfix].
    apply un_fixed_app in Hfix as [_ Hfix].
    now apply un_fixed_app in Hfix as [_ Hfix].
Qed.

(** A document with text around the two markers, for the theorem above. *)
Lemma C2_merge_replaces_marked_span_witness :
  let c := "# Title" +:+ nl +:+ mdStartStr +:+ nl +:+ "old" +:+ nl +:+ mdEndStr
             +:+ nl +:+ "footer" in
  let table_rows := [mdStartStr; "| required |"; mdEndStr] in
  let w := World {[ "README.md" := File c true ]} [] in
  exists before inside after : string,
    c = before +:+ mdStartStr +:+ inside +:+ mdEndStr +:+ after
    /\ len before = 8
    /\ len (before +:+ mdStartStr +:+ inside) = 42
    /\ writeFile (Some "README.md") table_rows w =
         (Ok tt,
          World (<["README.md" := File (universal_newlines before
                                          +:+ join nl table_rows
                                          +:+ universal_newlines after) true]>
                   (files w))
                (stdout w))
    /\ (universal_newlines c = c ->
        universal_newlines before = before /\ universal_newlines after = after).
Proof.
  intros c table_rows w.
  assert (Hf : files w !! "README.md" = Some (File c true)) by reflexivity.
  assert (Hij : 0 <= find mdStartStr c <= find mdEndStr c)
    by (vm_compute; split; discriminate).
  exact (C2_merge_replaces_marked_span "README.md" table_rows w c Hf Hij).
Defined.

(** [C2], as stated, fails.  First document: the end marker is followed by
    more text on its line; the code keeps that text, where the span "through
    the end of the end-marker line" would take it away.  Second document:
    the end marker comes first; what is written is not the document with a
    span that starts at the start marker replaced by the block, wherever
    that span is taken to end.  Third document: its lines end in CR LF;
    what is written has LF there, so the bytes before the start marker and
    after the end marker are not preserved. *)
Lemma C2_counterexample :
  (let c := mdStartStr +:+ "old" +:+ mdEndStr +:+ " tail" in
   let table_rows := [mdStartStr; "| required |"; mdEndStr] in
   let w := World {[ "README.md" := File c true ]} [] in
   exists written,
     writeFile (Some "README.md") table_rows w =
       (Ok tt, World {[ "README.md" := File written true ]} [])
     /\ written = mdStartStr +:+ nl +:+ "| required |" +:+ nl +:+ mdEndStr +:+ " tail"
     /\ SinkSpec.merge_through_line_end c table_rows =
          mdStartStr +:+ nl +:+ "| required |" +:+ nl +:+ mdEndStr
     /\ written <> SinkSpec.merge_through_line_end c table_rows)
  /\
  (let c := mdEndStr +:+ nl +:+ mdStartStr in
   let table_rows := [mdStartStr; "| required |"; mdEndStr] in
   let w := World {[ "README.md" := File c true ]} [] in
   exists written,
     writeFile (Some "README.md") table_rows w =
       (Ok tt, World {[ "README.md" := File written true ]} [])
     /\ forall k : nat,
          (Z.to_nat (find mdStartStr c) + String.length mdStartStr <= k)%nat ->
          written <> upto c (find mdStartStr c) +:+ join nl table_rows +:+ drop k c)
  /\
  (let crlf := String cr nl in
   let c := "intro" +:+ crlf +:+ mdStartStr +:+ "old" +:+ mdEndStr +:+ crlf
              +:+ "footer" +:+ crlf in
   let table_rows := [mdStartStr; "| required |"; mdEndStr] in
   let w := World {[ "README.md" := File c true ]} [] in
   exists written,
     writeFile (Some "README.md") table_rows w =
       (Ok tt, World {[ "README.md" := File written true ]} [])
     /\ written = "intro" +:+ nl +:+ join nl table_rows +:+ nl +:+ "footer" +:+ nl
     /\ upto c (find mdStartStr c) = "intro" +:+ crlf
     /\ from c (find mdEndStr c + len mdEndStr) = crlf +:+ "footer" +:+ crlf
     /\ written <> upto c (find mdStartStr c) +:+ join nl table_rows
                     +:+ from c (find mdEndStr c + len mdEndStr)).
Proof.
  split; [| split].
  - eexists. split; [vm_compute; reflexivity |].
    split; [reflexivity |]. split; [reflexivity |].
    vm_compute. discriminate.
  - eexists. split; [vm_compute; reflexivity |].
    intros k Hk. rewrite (drop_ge k) by (vm_compute in Hk |- *; lia).
    vm_compute. discriminate.
  - eexists. split; [vm_compute; reflexivity |].
    split; [reflexivity |]. split; [reflexivity |]. split; [reflexivity |].
    vm_compute. discriminate.
Qed.

(** [C1], at the failing input.  The target holds the end marker on its
    first line and the start marker on its second, so the end marker has no
    start marker before it and the start marker has no end marker after it.
    [writeFile] raises nothing: both indices differ from [-1], and it
    writes the text up to the start marker, the block, and the text after
    the end marker, which leaves both old markers in the document. *)
Theorem C1_reversed_markers_not_rejected :
  let c := mdEndStr +:+ nl +:+ mdStartStr in
  let table_rows := [mdStartStr; "| required |"; mdEndStr] in
  let w := World {[ "README.md" := File c true ]} [] in
  find mdEndStr c = 0
  /\ find mdStartStr c = 28
  /\ writeFile (Some "README.md") table_rows w =
       (Ok tt,
        World {[ "README.md" :=
                   File (mdEndStr +:+ nl
                           +:+ mdStartStr +:+ nl +:+ "| required |" +:+ nl +:+ mdEndStr
                           +:+ nl +:+ mdStartStr) true ]} []).
Proof. vm_compute. repeat split; reflexivity. Qed.

End SinkFacts.

(** ** The row builder and the renderer: [processData] *)

Module RowFacts.
Import ADOPipelineDoc Rows.

(** *** Dictionaries *)

Section DictFacts.
Context {V : Type}.
Implicit Types (d : dict V) (k : string).

Lemma dict_get_set d k k' v :
  dict_get (dict_set d k' v) k = if String.eqb k' k then Some v else dict_get d k.
Proof.
  induction d as [|[k0 v0] d IH]; simpl.
  - destruct (String.eqb_spec k' k); reflexivity.
  - destruct (String.eqb_spec k0 k') as [-> | Hne]; simpl.
    + destruct (String.eqb_spec k' k); reflexivity.
    + destruct (String.eqb_spec k0 k) as [-> | Hne'].
      * destruct (String.eqb_spec k' k); [congruence | reflexivity].
      * exact IH.
Qed.

Lemma dict_get_pop d k k' :
  dict_get (dict_pop d k') k = if String.eqb k' k then None else dict_get d k.
Proof.
  unfold dict_pop. induction d as [|[k0 v0] d IH]; simpl.
  - destruct (String.eqb k' k); reflexivity.
  - destruct (String.eqb_spec k0 k') as [-> | Hne]; simpl.
    + rewrite IH. destruct (String.eqb_spec k' k); reflexivity.
    + rewrite IH. destruct (String.eqb_spec k0 k) as [-> | Hne'].
      * destruct (String.eqb_spec k' k); [congruence | reflexivity].
      * reflexivity.
Qed.

(** [update] reads the last binding of a key in the other dictionary, and
    keeps the old one where there is none. *)
Lemma dict_get_update d other k :
  dict_get (dict_update d other) k =
    match dict_get (rev other) k with
    | Some v => Some v
    | None => dict_get d k
    end.
Proof.
  unfold dict_update. revert d.
  induction other as [|[k0 v0] other IH] using rev_ind; intros d.
  - reflexivity.
  - rewrite fold_left_app, rev_app_distr. simpl.
    rewrite dict_get_set. destruct (String.eqb k0 k); [reflexivity | apply IH].
Qed.

Lemma dict_get_app d1 d2 k :
  dict_get (d1 ++ d2)%list k =
    match dict_get d1 k with Some v => Some v | None => dict_get d2 k end.
Proof.
  induction d1 as [|[k0 v0] d1 IH]; simpl; [reflexivity |].
  destruct (String.eqb k0 k); [reflexivity | exact IH].
Qed.

Lemma dict_get_rev_None d k : dict_get d k = None -> dict_get (rev d) k = None.
Proof.
  induction d as [|[k0 v0] d IH]; simpl; [reflexivity |].
  destruct (String.eqb k0 k) eqn:E; [discriminate |].
  intros Hd. rewrite dict_get_app, (IH Hd). simpl. now rewrite E.
Qed.

Lemma dict_get_rev_Some d k :
  is_Some (dict_get d k) -> is_Some (dict_get (rev d) k).
Proof.
  induction d as [|[k0 v0] d IH]; simpl; [intros [? [=]] |].
  rewrite dict_get_app. simpl.
  destruct (dict_get (rev d) k); [eauto |].
  destruct (String.eqb k0 k); [eauto |].
  intros Hs. destruct (IH Hs) as [? [=]].
Qed.

End DictFacts.

(** *** The first loop *)

Section Loops.
Context `{PyLib}.

Lemma truthy_get_or (d : dict value) k :
  truthy (dict_get_or d k VNone) = populates k d.
Proof. unfold populates, dict_get_or. now destruct (dict_get d k). Qed.

Lemma populates_get (d : dict value) k :
  populates k d = true -> exists v, dict_get d k = Some v /\ truthy v = true.
Proof.
  unfold populates, dict_get_or. destruct (dict_get d k) as [v|]; simpl; [eauto | discriminate].
Qed.

Lemma prettyObject_key (d : dict value) k :
  populates k d = true ->
  prettyObject (VDict d) (Some k) = Ok (pretty (dict_get_or d k VNone)).
Proof.
  intros Hp. destruct (populates_get d k Hp) as (v & Hv & _).
  unfold prettyObject, dict_get_or. rewrite Hv. reflexivity.
Qed.

(** One turn of the first loop on a mapping. *)
Lemma build_row_dict a b c rows (d : dict value) :
  build_row (flags a b c, rows) (VDict d) =
    if valid_param d
    then Ok (flags (a || populates "displayName" d)
                   (b || populates "values" d)
                   (c || populates "default" d),
             (rows ++ [row_of d])%list)
    else Raise (ADOPipelineDocException MissingRequiredField).
Proof.
  unfold build_row, valid_param, row_of, get, update, bindE.
  rewrite !truthy_get_or.
  fold (populates "displayName" d) (populates "values" d) (populates "default" d).
  destruct (populates "name" d); [| reflexivity].
  destruct (populates "type" d); [| reflexivity].
  cbn [negb andb].
  destruct (populates "displayName" d), (populates "default" d) eqn:Hd,
    (populates "values" d) eqn:Hv, (eq_str (dict_get_or d "type" VNone) "object");
    rewrite ?(prettyObject_key d "default" Hd), ?(prettyObject_key d "values" Hv),
      ?orb_true_r, ?orb_false_r;
    destruct a, b, c; reflexivity.
Qed.

Lemma build_row_other st v :
  (forall d, v <> VDict d) -> build_row st v = Raise AttributeError.
Proof. intros Hv. destruct st, v; try reflexivity. now destruct (Hv d). Qed.

Lemma forE_build_row_valid ds : forall a b c rows,
  forallb valid_param ds = true ->
  forE build_row (map VDict ds) (flags a b c, rows) =
    Ok (flags (a || existsb (populates "displayName") ds)
              (b || existsb (populates "values") ds)
              (c || existsb (populates "default") ds),
        (rows ++ map row_of ds)%list).
Proof.
  induction ds as [|d ds IH]; intros a b c rows Hall;
    cbn [forE map forallb existsb] in *.
  - now rewrite !orb_false_r, app_nil_r.
  - apply andb_true_iff in Hall as [Hd Hall].
    rewrite build_row_dict, Hd. cbn [bindE]. rewrite IH by exact Hall.
    now rewrite !orb_assoc, <- app_assoc.
Qed.

Lemma forE_build_row_invalid ds : forall a b c rows,
  forallb valid_param ds = false ->
  forE build_row (map VDict ds) (flags a b c, rows) =
    Raise (ADOPipelineDocException MissingRequiredField).
Proof.
  induction ds as [|d ds IH]; intros a b c rows Hall;
    cbn [forE map forallb] in *.
  - discriminate.
  - rewrite build_row_dict. destruct (valid_param d); cbn [bindE andb] in *.
    + now apply IH.
    + reflexivity.
Qed.

(** *** The second loop *)

Lemma forE_drop_col a b c (rows : list (dict value)) :
  forE drop_col (flags a b c) (heading_order, rows) =
    Ok (columns (flags a b c), map (prune (flags a b c)) rows).
Proof.
  destruct a, b, c; simpl; rewrite ?map_map, ?map_id; reflexivity.
Qed.

(** Both loops, on a list of mappings that pass the test. *)
Lemma build_valid ds :
  forallb valid_param ds = true ->
  build (VList (map VDict ds)) =
    Ok (columns (usage ds), map (fun d => prune (usage ds) (row_of d)) ds).
Proof.
  intros Hall. unfold build, iter, bindE, use_col.
  change [("displayName", false); ("values", false); ("default", false)]
    with (flags false false false).
  rewrite forE_build_row_valid by exact Hall. cbn [orb app].
  rewrite forE_drop_col. unfold usage. now rewrite map_map.
Qed.

Lemma build_invalid ds :
  forallb valid_param ds = false ->
  build (VList (map VDict ds)) = Raise (ADOPipelineDocException MissingRequiredField).
Proof.
  intros Hall. unfold build, iter, bindE, use_col.
  change [("displayName", false); ("values", false); ("default", false)]
    with (flags false false false).
  now rewrite forE_build_row_invalid.
Qed.

(** *** Rendering *)

Lemma mapE_separator_cell a b c :
  mapE separator_cell (columns (flags a b c)) = Ok (separators (columns (flags a b c))).
Proof. destruct a, b, c; reflexivity. Qed.

Lemma render_columns mdFile a b c rows :
  render mdFile (columns (flags a b c)) rows =
    Ok (opening mdFile
          ++ [table_line (columns (flags a b c));
              table_line (separators (columns (flags a b c)))]
          ++ map (row_text (columns (flags a b c))) rows
          ++ closing mdFile)%list.
Proof.
  unfold render, bindE. rewrite mapE_separator_cell.
  destruct mdFile; simpl; rewrite <- ?app_assoc; simpl; try reflexivity.
  now rewrite app_nil_r.
Qed.

(** [processData] on a list of mappings that pass the test. *)
Lemma processData_valid ds mdFile :
  forallb valid_param ds = true ->
  processData (VList (map VDict ds)) mdFile =
    Ok (opening mdFile
          ++ [table_line (columns (usage ds));
              table_line (separators (columns (usage ds)))]
          ++ map (fun d => row_text (columns (usage ds)) (prune (usage ds) (row_of d))) ds
          ++ closing mdFile)%list.
Proof.
  intros Hall. unfold processData, bindE. rewrite build_valid by exact Hall.
  unfold usage. rewrite render_columns. now rewrite map_map.
Qed.

Lemma processData_invalid ds mdFile :
  forallb valid_param ds = false ->
  processData (VList (map VDict ds)) mdFile =
    Raise (ADOPipelineDocException MissingRequiredField).
Proof.
  intros Hall. unfold processData, bindE. now rewrite build_invalid.
Qed.

(** *** Columns *)

Lemma columns_required a b c key :
  In key ["required"; "name"; "type"] -> In key (columns (flags a b c)).
Proof.
  intros Hk. destruct a, b, c; simpl in *; intuition auto.
Qed.

Lemma columns_optional a b c key :
  In key ["displayName"; "values"; "default"] ->
  In key (columns (flags a b c)) <-> dict_get (flags a b c) key = Some true.
Proof.
  intros Hk. simpl in Hk.
  destruct Hk as [<- | [<- | [<- | []]]]; destruct a, b, c; simpl;
    intuition (try discriminate; auto).
Qed.

Lemma columns_heading a b c key :
  In key (columns (flags a b c)) -> In key heading_order.
Proof. unfold columns. intros Hk. now apply filter_In in Hk as [Hk _]. Qed.

Lemma usage_populated ds key :
  In key ["displayName"; "values"; "default"] ->
  dict_get (usage ds) key = Some true <->
  exists d, In d ds /\ populates key d = true.
Proof.
  intros Hk. simpl in Hk. rewrite <- existsb_exists.
  destruct Hk as [<- | [<- | [<- | []]]]; unfold usage, flags; simpl;
    split; congruence.
Qed.

(** A pruned row has lost the keys of the unused columns and kept every
    other key. *)
Lemma dict_get_prune a b c (row : dict value) key :
  dict_get (prune (flags a b c) row) key =
    match dict_get (flags a b c) key with
    | Some false => None
    | _ => dict_get row key
    end.
Proof.
  unfold prune, flags. cbn [fold_left fst snd].
  destruct a, b, c; cbn [negb dict_get]; rewrite ?dict_get_pop;
    repeat match goal with
      | |- context [String.eqb ?x ?y] => destruct (String.eqb_spec x y); subst
      end; try reflexivity; try congruence.
Qed.

(** A built row holds every key of the template. *)
Lemma row_of_template (d : dict value) key :
  In key heading_order -> is_Some (dict_get (row_of d) key).
Proof.
  intros Hk. unfold row_of.
  assert (is_Some (dict_get (dict_update object_template d) key)) as Hu.
  { rewrite dict_get_update. destruct (dict_get (rev d) key); [eauto |].
    simpl in Hk.
    destruct Hk as [<- | [<- | [<- | [<- | [<- | [<- | []]]]]]]; simpl; eauto. }
  repeat match goal with
    | |- context [if ?b then _ else _] => destruct b
    end; rewrite ?dict_get_set;
    repeat match goal with
      | |- context [String.eqb ?x ?y] => destruct (String.eqb x y)
      end; eauto.
Qed.

(** Outside the six columns, a built row holds the keys of its parameter. *)
Lemma row_of_other (d : dict value) key :
  ~ In key heading_order ->
  is_Some (dict_get (row_of d) key) <-> is_Some (dict_get d key).
Proof.
  intros Hk. unfold row_of.
  assert (forall k', In k' heading_order -> String.eqb k' key = false) as Hne.
  { intros k' Hk'. destruct (String.eqb_spec k' key); [congruence | reflexivity]. }
  assert (is_Some (dict_get (dict_update object_template d) key)
          <-> is_Some (dict_get d key)) as Hu.
  { rewrite dict_get_update. split.
    - destruct (dict_get d key) eqn:E; [eauto |].
      rewrite (dict_get_rev_None _ _ E).
      unfold object_template. cbn [dict_get].
      rewrite !Hne by (simpl; auto 10). intros [? [=]].
    - intros Hs. apply dict_get_rev_Some in Hs.
      destruct (dict_get (rev d) key); [eauto | exact (False_ind _ (is_Some_None Hs))]. }
  repeat match goal with
    | |- context [if ?b then _ else _] => destruct b
    end; rewrite ?dict_get_set, ?Hne by (simpl; auto 10); exact Hu.
Qed.


(** *** What a row holds under each key *)

Lemma dict_get_filter {V} (P : string -> bool) (d : dict V) key :
  dict_get (List.filter (fun kv => P (fst kv)) d) key =
    if P key then dict_get d key else None.
Proof.
  induction d as [|[k0 v0] d IH]; simpl.
  - now destruct (P key).
  - destruct (P k0) eqn:Ek; simpl.
    + destruct (String.eqb_spec k0 key) as [-> | Hne]; [now rewrite Ek | exact IH].
    + rewrite IH. destruct (String.eqb_spec k0 key) as [-> | Hne]; [now rewrite Ek |].
      reflexivity.
Qed.

Lemma filter_rev {A} (P : A -> bool) (l : list A) :
  List.filter P (rev l) = rev (List.filter P l).
Proof.
  induction l as [|x l IH]; simpl; [reflexivity |].
  rewrite List.filter_app, IH. simpl. destruct (P x); simpl; [reflexivity |].
  now rewrite app_nil_r.
Qed.

Lemma dict_get_rev_NoDup {V} (d : dict V) key :
  List.NoDup (dict_keys d) -> dict_get (rev d) key = dict_get d key.
Proof.
  unfold dict_keys. induction d as [|[k0 v0] d IH]; simpl; [reflexivity |].
  intros Hnd. apply NoDup_cons_iff in Hnd as [Hk0 Hnd].
  rewrite dict_get_app, (IH Hnd). simpl.
  destruct (String.eqb_spec k0 key) as [-> | Hne].
  - destruct (dict_get d key) as [v|] eqn:E; [| reflexivity].
    exfalso. apply Hk0. clear -E.
    induction d as [|[k1 v1] d IH]; simpl in *; [discriminate |].
    destruct (String.eqb_spec k1 key); [now left | right; now apply IH].
  - now destruct (dict_get d key).
Qed.

(** The binding of every key in a built row. *)
Lemma dict_get_row_of (d : dict value) key :
  dict_get (row_of d) key =
    if populates "values" d && String.eqb "values" key
    then Some (VStr (pretty (dict_get_or d "values" VNone)))
    else if eq_str (dict_get_or d "type" VNone) "object" && populates "default" d
            && String.eqb "default" key
    then Some (VStr (pretty (dict_get_or d "default" VNone)))
    else if populates "default" d && String.eqb "required" key
    then Some (VStr "")
    else match dict_get (rev d) key with
         | Some v => Some v
         | None => dict_get object_template key
         end.
Proof.
  unfold row_of.
  destruct (populates "values" d), (populates "default" d),
    (eq_str (dict_get_or d "type" VNone) "object");
    cbn [andb]; rewrite ?dict_get_set, ?dict_get_update;
    repeat match goal with
      | |- context [String.eqb ?x key] =>
          let E := fresh "E" in
          destruct (String.eqb x key) eqn:E; [apply String.eqb_eq in E |]
      end; try reflexivity; congruence.
Qed.

(** The required cell of a row: empty with a populated default; otherwise
    the field required of the parameter if it has one, and "Yes" if it has
    none. *)
Lemma required_of_row a b c (d : dict value) :
  dict_get_or (prune (flags a b c) (row_of d)) "required" (VStr "") =
    if populates "default" d then VStr ""
    else match dict_get (rev d) "required" with
         | Some v => v
         | None => VStr "Yes"
         end.
Proof.
  unfold dict_get_or. rewrite dict_get_prune, dict_get_row_of.
  cbn [flags dict_get String.eqb Ascii.eqb Bool.eqb andb].
  rewrite !andb_false_r.
  destruct (populates "default" d); [reflexivity |].
  now destruct (dict_get (rev d) "required").
Qed.

Lemma required_cell_empty a b c (d : dict value) :
  populates "default" d = true ->
  PyShow.str (dict_get_or (prune (flags a b c) (row_of d)) "required" (VStr "")) = "".
Proof. intros Hd. now rewrite required_of_row, Hd. Qed.

Lemma required_cell_yes a b c (d : dict value) :
  populates "default" d = false ->
  dict_get d "required" = None ->
  PyShow.str (dict_get_or (prune (flags a b c) (row_of d)) "required" (VStr "")) = "Yes".
Proof.
  intros Hd Hr. now rewrite required_of_row, Hd, (dict_get_rev_None _ _ Hr).
Qed.

(** A default that is there but falsy: the parameter does not count as
    using the column, and the value itself sits in the default cell of its
    row, whatever the type. *)
Lemma falsy_default_kept (d : dict value) v :
  List.NoDup (dict_keys d) ->
  dict_get d "default" = Some v ->
  truthy v = false ->
  populates "default" d = false /\ dict_get (row_of d) "default" = Some v.
Proof.
  intros Hnd Hv Hf.
  assert (Hp : populates "default" d = false)
    by (unfold populates, dict_get_or; now rewrite Hv).
  split; [exact Hp |].
  rewrite dict_get_row_of, Hp, (dict_get_rev_NoDup _ _ Hnd), Hv.
  cbn [String.eqb Ascii.eqb Bool.eqb andb]. now rewrite !andb_false_r.
Qed.

(** When the default column survives, that falsy value is what the default
    cell of the row shows. *)
Lemma falsy_default_shown a b (d : dict value) v :
  List.NoDup (dict_keys d) ->
  dict_get d "default" = Some v ->
  truthy v = false ->
  dict_get_or (prune (flags a b true) (row_of d)) "default" (VStr "") = v.
Proof.
  intros Hnd Hv Hf. destruct (falsy_default_kept d v Hnd Hv Hf) as [_ Hrow].
  unfold dict_get_or. rewrite dict_get_prune.
  cbn [flags dict_get String.eqb Ascii.eqb Bool.eqb].
  now rewrite Hrow.
Qed.

(** *** Unrecognized fields *)

Lemma dict_get_strip (d : dict value) key :
  recognized key = true -> dict_get (strip_unknown d) key = dict_get d key.
Proof. intros Hk. unfold strip_unknown. now rewrite dict_get_filter, Hk. Qed.

Lemma dict_get_rev_strip (d : dict value) key :
  dict_get (rev (strip_unknown d)) key =
    if recognized key then dict_get (rev d) key else None.
Proof. unfold strip_unknown. now rewrite <- filter_rev, dict_get_filter. Qed.

Lemma populates_strip (d : dict value) key :
  recognized key = true -> populates key (strip_unknown d) = populates key d.
Proof. intros Hk. unfold populates, dict_get_or. now rewrite dict_get_strip. Qed.

Lemma valid_param_strip (d : dict value) :
  valid_param (strip_unknown d) = valid_param d.
Proof. unfold valid_param, dict_get_or. now rewrite !dict_get_strip. Qed.

Lemma usage_strip (ds : list (dict value)) :
  usage (map strip_unknown ds) = usage ds.
Proof.
  assert (E : forall key, recognized key = true ->
              existsb (populates key) (map strip_unknown ds)
              = existsb (populates key) ds).
  { intros key Hk. induction ds as [|d ds IH]; simpl; [reflexivity |].
    now rewrite populates_strip, IH. }
  unfold usage. now rewrite !E.
Qed.

(** Under a column key, the row of a parameter and the row of the same
    parameter without its unrecognized fields hold the same value, unless
    the key is required, the default is not populated, and the parameter
    has a field required of its own. *)
Lemma row_of_strip (d : dict value) key :
  In key heading_order ->
  key <> "required" \/ populates "default" d = true \/ dict_get d "required" = None ->
  dict_get (row_of (strip_unknown d)) key = dict_get (row_of d) key.
Proof.
  intros Hk Hreq. rewrite !dict_get_row_of.
  rewrite !populates_strip by reflexivity.
  unfold dict_get_or. rewrite !dict_get_strip by reflexivity.
  rewrite dict_get_rev_strip.
  simpl in Hk.
  destruct Hk as [<- | [<- | [<- | [<- | [<- | [<- | []]]]]]];
    try reflexivity.
  cbn [String.eqb Ascii.eqb Bool.eqb andb recognized existsb orb].
  rewrite !andb_false_r.
  destruct Hreq as [Hne | [Hp | Hn]]; [congruence | now rewrite Hp |].
  rewrite (dict_get_rev_None _ _ Hn). now destruct (populates "default" d).
Qed.

Lemma row_text_strip a b c (d : dict value) :
  populates "default" d = true \/ dict_get d "required" = None ->
  row_text (columns (flags a b c)) (prune (flags a b c) (row_of (strip_unknown d))) =
  row_text (columns (flags a b c)) (prune (flags a b c) (row_of d)).
Proof.
  intros Hreq. unfold row_text. f_equal. apply map_ext_in. intros key Hk.
  apply columns_heading in Hk.
  unfold dict_get_or. rewrite !dict_get_prune, row_of_strip; [reflexivity | exact Hk |].
  tauto.
Qed.

(** [X28].  Unrecognized fields do not show in the table, a field named
    required apart: if no parameter with an unpopulated default has one,
    the parameters without their unrecognized fields give the same
    result, be it a table or MissingRequiredField. *)
Lemma unrecognized_fields_ignored (ds : list (dict value)) mdFile :
  (forall d, In d ds ->
             populates "default" d = true \/ dict_get d "required" = None) ->
  processData (VList (map VDict (map strip_unknown ds))) mdFile =
  processData (VList (map VDict ds)) mdFile.
Proof.
  intros Hreq.
  assert (Hv : forallb valid_param (map strip_unknown ds) = forallb valid_param ds).
  { clear Hreq. induction ds as [|d ds IH]; simpl; [reflexivity |].
    now rewrite valid_param_strip, IH. }
  destruct (forallb valid_param ds) eqn:Hall.
  - rewrite !processData_valid by assumption.
    rewrite usage_strip, map_map. do 3 f_equal.
    f_equal. apply map_ext_in. intros d Hd. unfold usage.
    apply row_text_strip. now apply Hreq.
  - now rewrite !processData_invalid by assumption.
Qed.

(** *** The claims on the table *)

Lemma flags_optional a b c key :
  In key ["displayName"; "values"; "default"] ->
  exists u, dict_get (flags a b c) key = Some u.
Proof.
  simpl. intros [<- | [<- | [<- | []]]]; simpl; eauto.
Qed.

Lemma flags_other a b c key :
  ~ In key heading_order -> dict_get (flags a b c) key = None.
Proof.
  intros Hk. unfold flags. cbn [dict_get].
  repeat match goal with
    | |- context [String.eqb ?x key] =>
        destruct (String.eqb_spec x key) as [<- | _];
        [exfalso; apply Hk; simpl; auto 10 |]
    end.
  reflexivity.
Qed.

Lemma columns_In a b c key :
  In key (columns (flags a b c)) <->
  In key heading_order /\ dict_get (flags a b c) key <> Some false.
Proof.
  unfold columns. rewrite filter_In. split; intros [Hk Hu]; (split; [exact Hk |]).
  - intros E. rewrite E in Hu. discriminate.
  - destruct (dict_get (flags a b c) key) as [[|]|]; congruence.
Qed.

Lemma length_separators cols : length (separators cols) = length cols.
Proof. unfold separators. apply length_map. Qed.

(** [C3].  For a list of mappings that all carry a truthy name and type,
    [processData] succeeds; the header is the line of the surviving
    columns and every data line has one cell per surviving column.  The
    columns required, name and type always survive; displayName, values
    and default survive if and only if some parameter populates the field
    (holds a truthy value under that key).  A column that does not survive
    is in no row: its key has been popped from every row. *)
Theorem C3_optional_column_iff_populated (ds : list (dict value)) mdFile :
  forallb valid_param ds = true ->
  exists cols rows,
    build (VList (map VDict ds)) = Ok (cols, rows)
    /\ processData (VList (map VDict ds)) mdFile =
         Ok (opening mdFile
               ++ [table_line cols; table_line (separators cols)]
               ++ map (row_text cols) rows
               ++ closing mdFile)%list
    /\ length (separators cols) = length cols
    /\ (forall key, In key ["required"; "name"; "type"] -> In key cols)
    /\ (forall key, In key ["displayName"; "values"; "default"] ->
          (In key cols <-> exists d, In d ds /\ populates key d = true))
    /\ (forall key row,
          In key ["displayName"; "values"; "default"] ->
          ~ In key cols -> In row rows -> dict_get row key = None).
Proof.
  intros Hall.
  exists (columns (usage ds)), (map (fun d => prune (usage ds) (row_of d)) ds).
  split; [now apply build_valid |].
  split; [rewrite processData_valid by exact Hall; now rewrite map_map |].
  split; [apply length_separators |].
  split; [intros key Hk; now apply columns_required |].
  split.
  - intros key Hk. unfold usage at 1. rewrite columns_optional by exact Hk.
    now apply usage_populated.
  - intros key row Hk Hno Hrow.
    apply in_map_iff in Hrow as (d & <- & _).
    unfold usage in *. rewrite dict_get_prune.
    destruct (flags_optional
                (existsb (populates "displayName") ds)
                (existsb (populates "values") ds)
                (existsb (populates "default") ds) key Hk) as [u Hu].
    rewrite Hu. destruct u; [| reflexivity].
    exfalso. apply Hno. now apply columns_optional.
Qed.

(** [C5].  For a list of mappings that all carry a truthy name and type,
    [processData] answers the opening marker (with a target), the header,
    the separator, the data lines and the closing marker; there are as
    many data lines as parameters, and the i-th data line is the text of
    the row built from the i-th parameter. *)
Theorem C5_one_data_line_per_parameter (ds : list (dict value)) mdFile :
  forallb valid_param ds = true ->
  exists header separator data_lines,
    processData (VList (map VDict ds)) mdFile =
      Ok (opening mdFile ++ [header; separator] ++ data_lines ++ closing mdFile)%list
    /\ length data_lines = length ds
    /\ forall (i : nat) d,
         ds !! i = Some d ->
         data_lines !! i =
           Some (row_text (columns (usage ds)) (prune (usage ds) (row_of d))).
Proof.
  intros Hall.
  exists (table_line (columns (usage ds))),
    (table_line (separators (columns (usage ds)))),
    (map (fun d => row_text (columns (usage ds)) (prune (usage ds) (row_of d))) ds).
  split; [now apply processData_valid |].
  split; [apply length_map |].
  intros i d Hi. change (@map) with (@fmap list _). rewrite list_lookup_fmap, Hi.
  reflexivity.
Qed.

(** [C6], as amended.  For a list of mappings that all carry a truthy name
    and type, the rows at the point of rendering agree on the six column
    keys: each row holds exactly the keys of the surviving columns among
    them.  Any other key of a parameter stays in the row of that parameter
    and of no other. *)
Theorem C6_rows_share_the_column_keys (ds : list (dict value)) :
  forallb valid_param ds = true ->
  exists cols rows,
    build (VList (map VDict ds)) = Ok (cols, rows)
    /\ length rows = length ds
    /\ (forall row key,
          In row rows -> In key heading_order ->
          (is_Some (dict_get row key) <-> In key cols))
    /\ (forall (i : nat) d row key,
          ds !! i = Some d -> rows !! i = Some row ->
          ~ In key heading_order ->
          (is_Some (dict_get row key) <-> is_Some (dict_get d key))).
Proof.
  intros Hall.
  exists (columns (usage ds)), (map (fun d => prune (usage ds) (row_of d)) ds).
  split; [now apply build_valid |].
  split; [apply length_map |].
  split.
  - intros row key Hrow Hk.
    apply in_map_iff in Hrow as (d & <- & _).
    unfold usage. rewrite dict_get_prune, columns_In.
    pose proof (row_of_template d key Hk) as Hs.
    destruct (dict_get (flags _ _ _) key) as [[|]|]; split;
      try (intros _; split; [exact Hk | congruence]);
      try (intros _; exact Hs).
    + intros Hn. exfalso. exact (is_Some_None Hn).
    + intros [_ Hn]. congruence.
  - intros i d row key Hd Hrow Hk.
    change (@map) with (@fmap list _) in Hrow.
    rewrite list_lookup_fmap, Hd in Hrow.
    assert (Some (prune (usage ds) (row_of d)) = Some row) as Hr by exact Hrow.
    assert (row = prune (usage ds) (row_of d)) as -> by congruence.
    clear Hr Hrow.
    unfold usage. rewrite dict_get_prune, flags_other by exact Hk.
    now apply row_of_other.
Qed.

(** [C4], at the failing input: a parameter with no default and a field
    named required.  [row_object.update(param)] writes that field over the
    "Yes" of the template and nothing resets it, so the required cell shows
    the field, not "Yes". *)
Theorem C4_required_field_replaces_yes :
  processData
    (VList [VDict [("name", VStr "env"); ("type", VStr "string");
                   ("required", VStr "no")]]) None =
    Ok ["| required | name | type |";
        "| :-: | :-- | :-- |";
        "| no | env | string |"].
Proof. reflexivity. Qed.

(** [C7], at the failing input: the same parameter with and without the
    unknown field [required: false].  Without it the required cell is
    "Yes"; with it the cell is "False". *)
Theorem C7_unknown_required_field_changes_the_cell :
  processData
    (VList [VDict [("name", VStr "env"); ("type", VStr "string");
                   ("required", VBool false)]]) None =
    Ok ["| required | name | type |";
        "| :-: | :-- | :-- |";
        "| False | env | string |"]
  /\ processData
       (VList [VDict [("name", VStr "env"); ("type", VStr "string")]]) None =
     Ok ["| required | name | type |";
         "| :-: | :-- | :-- |";
         "| Yes | env | string |"].
Proof. split; reflexivity. Qed.

(** [C10], at the failing input: the first parameter has the falsy default
    [0] and a field [required: optional]; the second has the default [3],
    so the default column survives.  The falsy default is rendered ("0")
    and does not clear the required cell, but that cell is "optional", not
    "Yes". *)
Theorem C10_falsy_default_with_required_field :
  processData
    (VList [VDict [("name", VStr "retries"); ("type", VStr "number");
                   ("default", VInt 0); ("required", VStr "optional")];
            VDict [("name", VStr "replicas"); ("type", VStr "number");
                   ("default", VInt 3)]]) None =
    Ok ["| required | name | type | default |";
        "| :-: | :-- | :-- | :-- |";
        "| optional | retries | number | 0 |";
        "|  | replicas | number | 3 |"].
Proof. reflexivity. Qed.

End Loops.

(** [C6], as stated, fails: the first parameter carries the unrecognized
    field owner, the second does not, and at the point of rendering the
    first row has the key owner while the second has not. *)
Lemma C6_counterexample :
  exists cols row1 row2,
    @build Example.lib
      (VList [VDict [("name", VStr "env"); ("type", VStr "string");
                     ("owner", VStr "platform")];
              VDict [("name", VStr "replicas"); ("type", VStr "number")]])
    = Ok (cols, [row1; row2])
    /\ In "owner" (dict_keys row1)
    /\ ~ In "owner" (dict_keys row2).
Proof.
  eexists _, _, _. split; [reflexivity |].
  split; [simpl; auto 10 |].
  simpl. intuition discriminate.
Qed.

End RowFacts.

(** ** Examples for the theorems on the table *)

Module RowExamples.
Import ADOPipelineDoc Rows RowFacts.

(** The two parameters of [Example.pipeline_params], for [C3]: only the
    default column is populated. *)
Lemma C3_optional_column_iff_populated_witness :
  exists cols rows,
    @build Example.lib (VList (map VDict Example.pipeline_params)) = Ok (cols, rows)
    /\ @processData Example.lib (VList (map VDict Example.pipeline_params))
         (Some "README.md") =
         Ok (opening (Some "README.md")
               ++ [table_line cols; table_line (separators cols)]
               ++ map (@row_text Example.lib cols) rows
               ++ closing (Some "README.md"))%list
    /\ length (separators cols) = length cols
    /\ (forall key, In key ["required"; "name"; "type"] -> In key cols)
    /\ (forall key, In key ["displayName"; "values"; "default"] ->
          (In key cols <->
           exists d, In d Example.pipeline_params /\ populates key d = true))
    /\ (forall key row,
          In key ["displayName"; "values"; "default"] ->
          ~ In key cols -> In row rows -> dict_get row key = None).
Proof.
  assert (Hall : forallb valid_param Example.pipeline_params = true) by reflexivity.
  exact (@C3_optional_column_iff_populated Example.lib Example.pipeline_params
           (Some "README.md") Hall).
Defined.

Lemma C5_one_data_line_per_parameter_witness :
  exists header separator data_lines,
    @processData Example.lib (VList (map VDict Example.pipeline_params)) None =
      Ok (opening None ++ [header; separator] ++ data_lines ++ closing None)%list
    /\ length data_lines = length Example.pipeline_params
    /\ forall (i : nat) d,
         Example.pipeline_params !! i = Some d ->
         data_lines !! i =
           Some (@row_text Example.lib (columns (usage Example.pipeline_params))
                   (prune (usage Example.pipeline_params) (@row_of Example.lib d))).
Proof.
  assert (Hall : forallb valid_param Example.pipeline_params = true) by reflexivity.
  exact (@C5_one_data_line_per_parameter Example.lib Example.pipeline_params None Hall).
Defined.

Lemma C6_rows_share_the_column_keys_witness :
  exists cols rows,
    @build Example.lib (VList (map VDict Example.pipeline_params)) = Ok (cols, rows)
    /\ length rows = length Example.pipeline_params
    /\ (forall row key,
          In row rows -> In key heading_order ->
          (is_Some (dict_get row key) <-> In key cols))
    /\ (forall (i : nat) d row key,
          Example.pipeline_params !! i = Some d -> rows !! i = Some row ->
          ~ In key heading_order ->
          (is_Some (dict_get row key) <-> is_Some (dict_get d key))).
Proof.
  assert (Hall : forallb valid_param Example.pipeline_params = true) by reflexivity.
  exact (@C6_rows_share_the_column_keys Example.lib Example.pipeline_params Hall).
Defined.

End RowExamples.

(** ** The loader and the whole run: [parseYAML] and [__init__] *)

Module RunFacts.
Import ADOPipelineDoc Rows RowFacts SinkFacts.

Section Run.
Context `{PyLib}.

Lemma parseYAML_missing yamlFile w :
  files w !! yamlFile = None ->
  parseYAML yamlFile w = (Raise (ADOPipelineDocException ConfigNotFound), w).
Proof.
  intros Hf. unfold parseYAML, tryM, bindM. now rewrite (readFile_missing _ _ Hf).
Qed.

Lemma parseYAML_denied yamlFile w c :
  files w !! yamlFile = Some (File c false) ->
  parseYAML yamlFile w = (Raise (ADOPipelineDocException AccessDenied), w).
Proof.
  intros Hf. unfold parseYAML, tryM, bindM. now rewrite (readFile_denied _ _ _ Hf).
Qed.

Lemma parseYAML_malformed yamlFile w c :
  files w !! yamlFile = Some (File c true) ->
  yaml_safe_load (PyStr.universal_newlines c) = None ->
  parseYAML yamlFile w = (Raise (ADOPipelineDocException MalformedConfig), w).
Proof.
  intros Hf Hl. unfold parseYAML, tryM, bindM, liftE.
  now rewrite (readFile_ok _ _ _ Hf), Hl.
Qed.

Lemma parseYAML_undecodable yamlFile w :
  files w !! yamlFile = Some Undecodable ->
  parseYAML yamlFile w = (Raise UnicodeDecodeError, w).
Proof.
  intros Hf. unfold parseYAML, tryM, bindM. now rewrite (readFile_undecodable _ _ Hf).
Qed.

Lemma parseYAML_directory yamlFile w :
  files w !! yamlFile = Some Directory ->
  parseYAML yamlFile w = (Raise IsADirectoryError, w).
Proof.
  intros Hf. unfold parseYAML, tryM, bindM. now rewrite (readFile_directory _ _ Hf).
Qed.

(** [parseYAML] on a readable file that loads. *)
Lemma parseYAML_loaded yamlFile w c v :
  files w !! yamlFile = Some (File c true) ->
  yaml_safe_load (PyStr.universal_newlines c) = Some v ->
  parseYAML yamlFile w =
    match v with
    | VNone => (Raise (ADOPipelineDocException EmptyConfig), w)
    | VDict d =>
        if truthy (dict_get_or d "parameters" (VList []))
        then (Ok (dict_get_or d "parameters" (VList [])), w)
        else (Raise (ADOPipelineDocException NoParameters), w)
    | _ => (Raise AttributeError, w)
    end.
Proof.
  intros Hf Hl. unfold parseYAML, tryM, bindM, liftE.
  rewrite (readFile_ok _ _ _ Hf), Hl.
  destruct v; try reflexivity.
  unfold get. destruct (truthy (dict_get_or d "parameters" (VList []))); reflexivity.
Qed.

(** [C9].  When the file loads to a value that is neither None nor a
    mapping, [parseYAML] raises AttributeError, which is not an
    [ADOPipelineDocException] of any kind, and leaves the world as it was;
    [__init__] lets the AttributeError through. *)
Theorem C9_non_mapping_document_raises_AttributeError yamlFile mdFile w c v :
  files w !! yamlFile = Some (File c true) ->
  yaml_safe_load (PyStr.universal_newlines c) = Some v ->
  v <> VNone ->
  (forall d, v <> VDict d) ->
  parseYAML yamlFile w = (Raise AttributeError, w)
  /\ (forall kind w',
        parseYAML yamlFile w <> (Raise (ADOPipelineDocException kind), w'))
  /\ init (Some yamlFile) mdFile w = (Raise AttributeError, w).
Proof.
  intros Hf Hl Hnone Hdict.
  assert (Hp : parseYAML yamlFile w = (Raise AttributeError, w)).
  { rewrite (parseYAML_loaded _ _ _ _ Hf Hl).
    destruct v; try reflexivity; [congruence | now destruct (Hdict d)]. }
  split; [exact Hp |]. split.
  - intros kind w'. rewrite Hp. discriminate.
  - unfold init, bindM. now rewrite Hp.
Qed.

Lemma forallb_valid_false (ds : list (dict value)) d :
  In d ds -> valid_param d = false -> forallb valid_param ds = false.
Proof.
  intros Hin Hd. destruct (forallb valid_param ds) eqn:E; [| reflexivity].
  rewrite forallb_forall in E. rewrite (E d Hin) in Hd. discriminate.
Qed.

(** [C8].  The file loads to a mapping whose parameters are a list of
    mappings, one of which has no truthy name or no truthy type.  Then
    [processData] raises MissingRequiredField, and so does the run, with
    the world as it was before: no file is created or changed and nothing
    is printed. *)
Theorem C8_missing_name_or_type_writes_nothing
    yamlFile mdFile w c top (ds : list (dict value)) d :
  files w !! yamlFile = Some (File c true) ->
  yaml_safe_load (PyStr.universal_newlines c) = Some (VDict top) ->
  dict_get top "parameters" = Some (VList (map VDict ds)) ->
  In d ds ->
  valid_param d = false ->
  processData (VList (map VDict ds)) mdFile =
    Raise (ADOPipelineDocException MissingRequiredField)
  /\ init (Some yamlFile) mdFile w =
       (Raise (ADOPipelineDocException MissingRequiredField), w).
Proof.
  intros Hf Hl Hp Hin Hd.
  pose proof (forallb_valid_false ds d Hin Hd) as Hall.
  pose proof (processData_invalid ds mdFile Hall) as Hproc.
  split; [exact Hproc |].
  unfold init, bindM. rewrite (parseYAML_loaded _ _ _ _ Hf Hl).
  unfold dict_get_or. rewrite Hp. cbn [from_option id].
  assert (Ht : truthy (VList (map VDict ds)) = true)
    by (destruct ds; [destruct Hin | reflexivity]).
  rewrite Ht. unfold liftE. now rewrite Hproc.
Qed.

End Run.

Lemma C9_non_mapping_document_raises_AttributeError_witness :
  let w := World {[ "azure-pipelines.yml" := File Example.sequence_yaml true ]} [] in
  @parseYAML Example.lib "azure-pipelines.yml" w = (Raise AttributeError, w)
  /\ (forall kind w',
        @parseYAML Example.lib "azure-pipelines.yml" w
        <> (Raise (ADOPipelineDocException kind), w'))
  /\ @init Example.lib (Some "azure-pipelines.yml") (Some "README.md") w
     = (Raise AttributeError, w).
Proof.
  intros w.
  assert (Hf : files w !! "azure-pipelines.yml" = Some (File Example.sequence_yaml true))
    by reflexivity.
  assert (Hl : @yaml_safe_load Example.lib (PyStr.universal_newlines Example.sequence_yaml)
               = Some (VList [VStr "env"; VStr "replicas"])) by reflexivity.
  assert (Hnone : VList [VStr "env"; VStr "replicas"] <> VNone) by discriminate.
  assert (Hdict : forall d, VList [VStr "env"; VStr "replicas"] <> VDict d)
    by (intros d; discriminate).
  exact (@C9_non_mapping_document_raises_AttributeError Example.lib
           "azure-pipelines.yml" (Some "README.md") w _ _ Hf Hl Hnone Hdict).
Defined.

Lemma C8_missing_name_or_type_writes_nothing_witness :
  let w := World {[ "azure-pipelines.yml" := File Example.untyped_yaml true;
                    "README.md" := File "# Pipeline" true ]} [] in
  @processData Example.lib (VList (map VDict Example.untyped_params)) (Some "README.md")
    = Raise (ADOPipelineDocException MissingRequiredField)
  /\ @init Example.lib (Some "azure-pipelines.yml") (Some "README.md") w
     = (Raise (ADOPipelineDocException MissingRequiredField), w).
Proof.
  intros w.
  assert (Hf : files w !! "azure-pipelines.yml" = Some (File Example.untyped_yaml true))
    by reflexivity.
  assert (Hl : @yaml_safe_load Example.lib (PyStr.universal_newlines Example.untyped_yaml)
               = Some (VDict [("parameters", VList (map VDict Example.untyped_params))]))
    by reflexivity.
  assert (Hp : dict_get [("parameters", VList (map VDict Example.untyped_params))]
                 "parameters"
               = Some (VList (map VDict Example.untyped_params))) by reflexivity.
  assert (Hin : In [("name", VStr "replicas")] Example.untyped_params)
    by (simpl; auto).
  assert (Hd : valid_param [("name", VStr "replicas")] = false) by reflexivity.
  exact (@C8_missing_name_or_type_writes_nothing Example.lib
           "azure-pipelines.yml" (Some "README.md") w _ _ _ _ Hf Hl Hp Hin Hd).
Defined.

End RunFacts.

(** ** More on the sink *)

Module SinkProps.
Import PyStr PyStrFacts NewlineFacts FindFacts ADOPipelineDoc SinkFacts.

Lemma writeFile_missing path table_rows w :
  files w !! path = None ->
  writeFile (Some path) table_rows w =
    (Raise (ADOPipelineDocException ConfigNotFound), w).
Proof.
  intros Hf. unfold writeFile, tryM, bindM. now rewrite (readFile_missing _ _ Hf).
Qed.

Lemma writeFile_denied path table_rows w c :
  files w !! path = Some (File c false) ->
  writeFile (Some path) table_rows w =
    (Raise (ADOPipelineDocException AccessDenied), w).
Proof.
  intros Hf. unfold writeFile, tryM, bindM. now rewrite (readFile_denied _ _ _ Hf).
Qed.

Lemma writeFile_undecodable path table_rows w :
  files w !! path = Some Undecodable ->
  writeFile (Some path) table_rows w = (Raise UnicodeDecodeError, w).
Proof.
  intros Hf. unfold writeFile, tryM, bindM. now rewrite (readFile_undecodable _ _ Hf).
Qed.

Lemma writeFile_directory path table_rows w :
  files w !! path = Some Directory ->
  writeFile (Some path) table_rows w = (Raise IsADirectoryError, w).
Proof.
  intros Hf. unfold writeFile, tryM, bindM. now rewrite (readFile_directory _ _ Hf).
Qed.

(** What [writeFile] answers for a target, by the state of the target. *)
Lemma writeFile_cases path table_rows w :
  (files w !! path = None
   /\ writeFile (Some path) table_rows w
      = (Raise (ADOPipelineDocException ConfigNotFound), w))
  \/ (exists c, files w !! path = Some (File c false)
      /\ writeFile (Some path) table_rows w
         = (Raise (ADOPipelineDocException AccessDenied), w))
  \/ (files w !! path = Some Undecodable
      /\ writeFile (Some path) table_rows w = (Raise UnicodeDecodeError, w))
  \/ (files w !! path = Some Directory
      /\ writeFile (Some path) table_rows w = (Raise IsADirectoryError, w))
  \/ (exists c, files w !! path = Some (File c true)
      /\ (writeFile (Some path) table_rows w
          = (Raise (ADOPipelineDocException DanglingEndMarker), w)
          \/ writeFile (Some path) table_rows w
             = (Raise (ADOPipelineDocException DanglingStartMarker), w)
          \/ exists text,
               writeFile (Some path) table_rows w
               = (Ok tt, World (<[path := File text true]> (files w)) (stdout w)))).
Proof.
  destruct (files w !! path) as [[c [|] | |]|] eqn:Hf.
  - do 4 right. exists c. split; [reflexivity |].
    rewrite (writeFile_existing _ _ _ _ Hf). cbv zeta.
    destruct (_ && _); [now left |].
    destruct (_ && _); [right; now left |].
    right; right. destruct (_ && _); eexists; reflexivity.
  - right; left. exists c. split; [reflexivity |]. exact (writeFile_denied _ _ _ c Hf).
  - do 2 right; left. split; [reflexivity |]. now apply writeFile_undecodable.
  - do 3 right; left. split; [reflexivity |]. now apply writeFile_directory.
  - left. split; [reflexivity |]. now apply writeFile_missing.
Qed.

(** [X12].  A target that does not exist is not created: [readFile] has
    already turned the FileNotFoundError into an ADOPipelineDocException
    ("The file ... was not found."), which the handler of [writeFile] for
    FileNotFoundError does not catch.  The run ends with that exception and
    the world is as before. *)
Theorem missing_target_is_not_created path table_rows w :
  files w !! path = None ->
  writeFile (Some path) table_rows w =
    (Raise (ADOPipelineDocException ConfigNotFound), w)
  /\ files (snd (writeFile (Some path) table_rows w)) !! path = None.
Proof.
  intros Hf. rewrite (writeFile_missing _ _ _ Hf). split; [reflexivity | exact Hf].
Qed.

Lemma missing_target_is_not_created_witness :
  let w := World {[ "azure-pipelines.yml" := File Example.pipeline_yaml true ]} [] in
  writeFile (Some "README.md") ["| required |"] w =
    (Raise (ADOPipelineDocException ConfigNotFound), w)
  /\ files (snd (writeFile (Some "README.md") ["| required |"] w)) !! "README.md" = None.
Proof.
  intros w.
  assert (Hf : files w !! "README.md" = None) by reflexivity.
  exact (missing_target_is_not_created "README.md" ["| required |"] w Hf).
Defined.



(** [X14].  When [writeFile] succeeds with a target, the target was a
    readable file before; afterwards it is a readable file again, every
    other file is as it was, and nothing has been printed. *)
Theorem writeFile_touches_only_the_target path table_rows w w' :
  writeFile (Some path) table_rows w = (Ok tt, w') ->
  (exists c, files w !! path = Some (File c true))
  /\ (exists text, files w' !! path = Some (File text true))
  /\ (forall other, other <> path -> files w' !! other = files w !! other)
  /\ stdout w' = stdout w.
Proof.
  intros Hw.
  destruct (writeFile_cases path table_rows w)
    as [[_ E] | [(c & _ & E) | [[_ E] | [[_ E]
        | (c & Hc & [E | [E | [text E]]])]]]];
    rewrite E in Hw; try discriminate.
  injection Hw as <-. cbn [files stdout].
  split; [eauto |]. split; [exists text; apply lookup_insert_eq |].
  split; [| reflexivity].
  intros other Hne. now apply lookup_insert_ne.
Qed.

Lemma writeFile_touches_only_the_target_witness :
  let c := "# Title" +:+ nl +:+ mdStartStr +:+ nl +:+ mdEndStr in
  let w := World {[ "README.md" := File c true;
                    "azure-pipelines.yml" := File Example.pipeline_yaml true ]} [] in
  let w' := snd (writeFile (Some "README.md") [mdStartStr; "| required |"; mdEndStr] w) in
  (exists c, files w !! "README.md" = Some (File c true))
  /\ (exists text, files w' !! "README.md" = Some (File text true))
  /\ (forall other, other <> "README.md" -> files w' !! other = files w !! other)
  /\ stdout w' = stdout w.
Proof.
  intros c w w'.
  assert (Hw : writeFile (Some "README.md") [mdStartStr; "| required |"; mdEndStr] w
               = (Ok tt, w')) by (vm_compute; reflexivity).
  exact (writeFile_touches_only_the_target "README.md" _ w w' Hw).
Defined.

(** [X15].  For a readable target, which way [writeFile] goes is decided by
    the two markers alone: it raises "No start comment found" exactly when
    there is an end marker and no start marker, "No end comment found"
    exactly when there is a start marker and no end marker, and it writes
    in every other case. *)
Theorem writeFile_outcome_by_markers path table_rows w c :
  files w !! path = Some (File c true) ->
  (writeFile (Some path) table_rows w
     = (Raise (ADOPipelineDocException DanglingEndMarker), w)
   <-> find mdStartStr c = -1 /\ find mdEndStr c <> -1)
  /\ (writeFile (Some path) table_rows w
        = (Raise (ADOPipelineDocException DanglingStartMarker), w)
      <-> find mdStartStr c <> -1 /\ find mdEndStr c = -1)
  /\ ((exists w', writeFile (Some path) table_rows w = (Ok tt, w'))
      <-> (find mdStartStr c = -1 <-> find mdEndStr c = -1)).
Proof.
  intros Hf.
  pose proof (find_range mdStartStr c) as Hs.
  pose proof (find_range mdEndStr c) as He.
  destruct (Z.eq_dec (find mdStartStr c) (-1)) as [Es | Es];
    destruct (Z.eq_dec (find mdEndStr c) (-1)) as [Ee | Ee].
  all: first [ rewrite (no_marker_appends _ _ _ _ Hf Es Ee)
             | rewrite (end_marker_alone _ _ _ _ Hf Es Ee)
             | rewrite (start_marker_alone _ _ _ _ Hf Es Ee)
             | rewrite (both_markers_splice _ _ _ _ Hf Es Ee) ].
  all: repeat split; intros;
    repeat match goal with
      | Hx : _ /\ _ |- _ => destruct Hx
      | Hx : exists _, _ |- _ => destruct Hx
      end;
    try discriminate; try congruence; try tauto; eauto.
Qed.

Lemma writeFile_outcome_by_markers_witness :
  let c := "# Title" +:+ nl +:+ mdEndStr in
  let w := World {[ "README.md" := File c true ]} [] in
  (writeFile (Some "README.md") ["| required |"] w
     = (Raise (ADOPipelineDocException DanglingEndMarker), w)
   <-> find mdStartStr c = -1 /\ find mdEndStr c <> -1)
  /\ (writeFile (Some "README.md") ["| required |"] w
        = (Raise (ADOPipelineDocException DanglingStartMarker), w)
      <-> find mdStartStr c <> -1 /\ find mdEndStr c = -1)
  /\ ((exists w', writeFile (Some "README.md") ["| required |"] w = (Ok tt, w'))
      <-> (find mdStartStr c = -1 <-> find mdEndStr c = -1)).
Proof.
  intros c w.
  assert (Hf : files w !! "README.md" = Some (File c true)) by reflexivity.
  exact (writeFile_outcome_by_markers "README.md" ["| required |"] w c Hf).
Defined.

(** [X16].  A readable target without any marker keeps all of its text:
    what is written is the text of the target as it is read, one newline
    and the newline-joined block.  The target is read in text mode, so
    every CR LF and every other CR of the old content has become LF; a
    target without CR is the beginning of the new content byte for
    byte. *)
Theorem append_keeps_the_content path table_rows w c :
  files w !! path = Some (File c true) ->
  find mdStartStr c = -1 ->
  find mdEndStr c = -1 ->
  exists text,
    writeFile (Some path) table_rows w =
      (Ok tt, World (<[path := File text true]> (files w)) (stdout w))
    /\ take (String.length (universal_newlines c)) text = universal_newlines c
    /\ drop (String.length (universal_newlines c)) text = nl +:+ join nl table_rows
    /\ (universal_newlines c = c -> take (String.length c) text = c).
Proof.
  intros Hf Hs He. exists (universal_newlines c +:+ nl +:+ join nl table_rows).
  split; [now apply no_marker_appends |].
  split; [apply take_app_length |]. split; [apply drop_app_length |].
  intros Hfix. rewrite Hfix. apply take_app_length.
Qed.

Lemma append_keeps_the_content_witness :
  let c := "# Title" +:+ String cr nl +:+ "text" +:+ String cr "" in
  let w := World {[ "README.md" := File c true ]} [] in
  exists text,
    writeFile (Some "README.md") [mdStartStr; "| required |"; mdEndStr] w =
      (Ok tt, World (<["README.md" := File text true]> (files w)) (stdout w))
    /\ take (String.length (universal_newlines c)) text = "# Title" +:+ nl +:+ "text" +:+ nl
    /\ drop (String.length (universal_newlines c)) text
       = nl +:+ join nl [mdStartStr; "| required |"; mdEndStr]
    /\ (universal_newlines c = c -> take (String.length c) text = c).
Proof.
  intros c w.
  assert (Hf : files w !! "README.md" = Some (File c true)) by reflexivity.
  assert (Hs : find mdStartStr c = -1) by reflexivity.
  assert (He : find mdEndStr c = -1) by reflexivity.
  exact (append_keeps_the_content "README.md" _ w c Hf Hs He).
Defined.

End SinkProps.

(** ** Running the merge a second time *)

Module Rerun.
Import PyStr PyStrFacts NewlineFacts FindFacts ADOPipelineDoc SinkFacts.

(** Neither marker holds a newline: a marker cannot start before a newline
    and end after it. *)
Lemma start_marker_one_line m t :
  (m < String.length mdStartStr)%nat ->
  startswith (drop m mdStartStr) (nl +:+ t) = false.
Proof.
  intros Hm. change (String.length mdStartStr) with 29%nat in Hm.
  do 29 (destruct m as [|m]; [reflexivity |]). lia.
Qed.

Lemma end_marker_one_line m t :
  (m < String.length mdEndStr)%nat ->
  startswith (drop m mdEndStr) (nl +:+ t) = false.
Proof.
  intros Hm. change (String.length mdEndStr) with 27%nat in Hm.
  do 27 (destruct m as [|m]; [reflexivity |]). lia.
Qed.

(** A block that begins with the start marker and whose first end marker
    is its last 27 characters, placed between [pre] and [post], where no
    marker starts inside [pre]: the indices [writeFile] computes. *)
Lemma find_in_placed_block pre block post :
  startswith mdStartStr block = true ->
  find mdEndStr block = len block - len mdEndStr ->
  (forall q, (q < String.length pre)%nat ->
             startswith mdStartStr (drop q (pre +:+ block +:+ post)) = false) ->
  (forall q, (q < String.length pre)%nat ->
             startswith mdEndStr (drop q (pre +:+ block +:+ post)) = false) ->
  find mdStartStr (pre +:+ block +:+ post) = len pre
  /\ find mdEndStr (pre +:+ block +:+ post) + len mdEndStr = len pre + len block.
Proof.
  intros Hs He Hno_s Hno_e.
  assert (Hlen : (String.length mdStartStr <= String.length block)%nat).
  { apply startswith_inv in Hs. rewrite Hs, length_app. lia. }
  change (String.length mdStartStr) with 29%nat in Hlen.
  unfold len in *. change (String.length mdEndStr) with 27%nat in *.
  set (pb := (String.length block - 27)%nat).
  assert (Hpb : find mdEndStr block = Z.of_nat pb) by (unfold pb; lia).
  split.
  - apply find_at; [| exact Hno_s].
    rewrite drop_app_length, startswith_app_long by exact Hlen. exact Hs.
  - enough (find mdEndStr (pre +:+ block +:+ post)
            = Z.of_nat (String.length pre + pb)) by (unfold pb in *; lia).
    apply find_at.
    + rewrite <- drop_drop, drop_app_length.
      rewrite drop_app_lt by (unfold pb; lia).
      rewrite startswith_app_long by (rewrite length_drop; unfold pb; simpl; lia).
      replace pb with (Z.to_nat (find mdEndStr block)) by lia.
      apply find_occurs. lia.
    + intros q Hq.
      destruct (Nat.lt_ge_cases q (String.length pre)) as [Hlt | Hge];
        [now apply Hno_e |].
      replace q with (String.length pre + (q - String.length pre))%nat by lia.
      rewrite <- drop_drop, drop_app_length.
      rewrite drop_app_lt by (unfold pb in *; lia).
      rewrite startswith_app_long by (rewrite length_drop; unfold pb in *; simpl; lia).
      apply find_none_before. right. lia.
Qed.

Lemma length_zero s : String.length s = 0%nat -> s = "".
Proof. now destruct s. Qed.

(** A block that begins with the start marker and whose first end marker
    is its last 27 characters: it ends with the end marker, and as it is
    read it begins and ends in the same way. *)
Lemma read_block block :
  startswith mdStartStr block = true ->
  find mdEndStr block = len block - len mdEndStr ->
  (exists body, block = body +:+ mdEndStr
                /\ universal_newlines block = universal_newlines body +:+ mdEndStr)
  /\ startswith mdStartStr (universal_newlines block) = true
  /\ find mdEndStr (universal_newlines block)
     = len (universal_newlines block) - len mdEndStr.
Proof.
  intros Hs He.
  destruct start_marker_plain as [Hs1 Hs2], end_marker_plain as [He1 He2].
  assert (Hlen : (String.length mdStartStr <= String.length block)%nat).
  { apply startswith_inv in Hs. rewrite Hs, length_app. lia. }
  change (String.length mdStartStr) with 29%nat in Hlen.
  unfold len in *. change (String.length mdEndStr) with 27%nat in *.
  set (pb := (String.length block - 27)%nat).
  assert (Hpb : find mdEndStr block = Z.of_nat pb) by (unfold pb; lia).
  assert (Hblock : block = take pb block +:+ mdEndStr).
  { pose proof (find_occurs mdEndStr block ltac:(lia)) as Hocc.
    rewrite Hpb, Nat2Z.id in Hocc. apply startswith_inv in Hocc.
    rewrite <- (take_drop pb block) at 1. f_equal.
    rewrite Hocc. rewrite (length_zero (drop _ (drop pb block))).
    - apply app_nil_r.
    - rewrite !length_drop. change (String.length mdEndStr) with 27%nat.
      unfold pb. lia. }
  assert (Hread : universal_newlines block
                  = universal_newlines (take pb block) +:+ mdEndStr).
  { rewrite Hblock at 1.
    rewrite un_app by (rewrite <- (app_nil_r mdEndStr); now apply one_line_not_nl).
    now rewrite (un_one_line _ He1). }
  split; [exists (take pb block); split; [exact Hblock | exact Hread] |].
  split; [now rewrite startswith_un |].
  rewrite (find_un _ _ He1 He2), Hpb. unfold len.
  destruct (Z.eqb_spec (Z.of_nat pb) (-1)); [lia |].
  rewrite Nat2Z.id, Hread, length_app.
  change (String.length mdEndStr) with 27%nat. lia.
Qed.

(** A document [pre ++ block ++ post] whose [pre] and [post] have no CR,
    as it is read. *)
Lemma read_placed_block pre body post :
  universal_newlines pre = pre ->
  universal_newlines post = post ->
  universal_newlines (pre +:+ (body +:+ mdEndStr) +:+ post)
  = pre +:+ (universal_newlines body +:+ mdEndStr) +:+ post.
Proof.
  intros Hpre Hpost. destruct end_marker_plain as [He1 He2].
  rewrite (un_app_fixed _ _ Hpre). f_equal.
  rewrite !app_assoc.
  rewrite un_app by now apply one_line_not_nl.
  rewrite (un_app_fixed _ _ (un_one_line _ He1)). now rewrite Hpost.
Qed.

(** Merging a block into a document that is already [pre ++ block ++ post]
    writes the same document again. *)
Lemma rerun_placed_block path table_rows w pre post :
  let block := join nl table_rows in
  startswith mdStartStr block = true ->
  find mdEndStr block = len block - len mdEndStr ->
  universal_newlines pre = pre ->
  universal_newlines post = post ->
  files w !! path = Some (File (pre +:+ block +:+ post) true) ->
  (forall q, (q < String.length pre)%nat ->
             startswith mdStartStr
               (drop q (pre +:+ universal_newlines block +:+ post)) = false) ->
  (forall q, (q < String.length pre)%nat ->
             startswith mdEndStr
               (drop q (pre +:+ universal_newlines block +:+ post)) = false) ->
  writeFile (Some path) table_rows w =
    (Ok tt, World (<[path := File (pre +:+ block +:+ post) true]> (files w)) (stdout w)).
Proof.
  intros block Hbs Hbe Hpre Hpost Hf Hno_s Hno_e.
  destruct (read_block block Hbs Hbe) as ((body & Hbody & Hub) & Hus & Hue).
  assert (Hread : universal_newlines (pre +:+ block +:+ post)
                  = pre +:+ universal_newlines block +:+ post).
  { rewrite Hub, Hbody. now apply read_placed_block. }
  destruct (find_in_placed_block pre (universal_newlines block) post Hus Hue
              Hno_s Hno_e) as [Hi Hj].
  assert (Hlen : (String.length mdStartStr
                  <= String.length (universal_newlines block))%nat).
  { apply startswith_inv in Hus. rewrite Hus, length_app. lia. }
  change (String.length mdStartStr) with 29%nat in Hlen.
  unfold len in *. change (String.length mdEndStr) with 27%nat in *.
  assert (Hrs : find mdStartStr (pre +:+ block +:+ post) <> -1).
  { intros E. apply find_start_read in E. rewrite Hread in E. lia. }
  assert (Hre : find mdEndStr (pre +:+ block +:+ post) <> -1).
  { intros E. apply find_end_read in E. rewrite Hread in E. lia. }
  rewrite (both_markers_splice _ _ _ _ Hf Hrs Hre).
  unfold len. change (String.length mdEndStr) with 27%nat.
  rewrite Hread, Hi, Hj.
  unfold upto, from. rewrite !bound_nonneg by lia.
  rewrite Nat2Z.id.
  replace (Z.to_nat (Z.of_nat (String.length pre)
                     + Z.of_nat (String.length (universal_newlines block))))
    with (String.length pre + String.length (universal_newlines block))%nat by lia.
  rewrite take_app_length.
  rewrite <- drop_drop, drop_app_length, drop_app_length.
  reflexivity.
Qed.

(** The indices in a marked document as it is read. *)
Lemma read_marked_indices before inside after :
  let c := before +:+ mdStartStr +:+ inside +:+ mdEndStr +:+ after in
  len before = find mdStartStr c ->
  len (before +:+ mdStartStr +:+ inside) = find mdEndStr c ->
  find mdStartStr (universal_newlines c) = len (universal_newlines before)
  /\ find mdEndStr (universal_newlines c)
     = len (universal_newlines before +:+ mdStartStr +:+ universal_newlines inside).
Proof.
  intros c Hi Hj.
  destruct start_marker_plain as [Hs1 Hs2], end_marker_plain as [He1 He2].
  split.
  - rewrite (find_un _ _ Hs1 Hs2), <- Hi. unfold len.
    destruct (Z.eqb_spec (Z.of_nat (String.length before)) (-1)); [lia |].
    rewrite Nat2Z.id. unfold c. now rewrite take_app_length.
  - rewrite (find_un _ _ He1 He2), <- Hj. unfold len.
    destruct (Z.eqb_spec (Z.of_nat (String.length (before +:+ mdStartStr +:+ inside)))
                (-1)); [lia |].
    rewrite Nat2Z.id. unfold c.
    replace (before +:+ mdStartStr +:+ inside +:+ mdEndStr +:+ after)
      with ((before +:+ mdStartStr +:+ inside) +:+ mdEndStr +:+ after)
      by now rewrite !app_assoc.
    now rewrite take_app_length, read_upto_end.
Qed.

(** [X17].  Merging is idempotent on a marked document.  The target has
    its first start marker before its first end marker; the block begins
    with the start marker and its first end marker is its last 27
    characters (as the lines of [processData] have it, unless a cell holds
    the end marker).  Then the first merge succeeds, and merging the same
    block again into what it wrote succeeds and leaves the world as it
    is. *)
Theorem merge_again_changes_nothing path table_rows w c :
  files w !! path = Some (File c true) ->
  0 <= find mdStartStr c <= find mdEndStr c ->
  startswith mdStartStr (join nl table_rows) = true ->
  find mdEndStr (join nl table_rows) = len (join nl table_rows) - len mdEndStr ->
  exists w1,
    writeFile (Some path) table_rows w = (Ok tt, w1)
    /\ writeFile (Some path) table_rows w1 = (Ok tt, w1).
Proof.
  intros Hf Hij Hbs Hbe.
  set (block := join nl table_rows) in *.
  destruct (marked_span c Hij) as (before & inside & after & Hc & Hi & Hj).
  subst c.
  destruct (read_marked_indices before inside after Hi Hj) as [Hi' Hj'].
  destruct (read_block block Hbs Hbe) as (_ & Hus & _).
  set (pre := universal_newlines before) in *.
  set (post := universal_newlines after) in *.
  set (ub := universal_newlines block) in *.
  set (t := universal_newlines
              (before +:+ mdStartStr +:+ inside +:+ mdEndStr +:+ after)) in *.
  assert (Ht : t = pre +:+ mdStartStr +:+ universal_newlines inside
                     +:+ mdEndStr +:+ post) by apply read_marked.
  assert (Hub : ub = mdStartStr +:+ drop (String.length mdStartStr) ub)
    by now apply startswith_inv.
  (* before [pre] ends, the two documents look alike to a marker *)
  assert (Hsame : forall sub q,
            (String.length sub <= String.length mdStartStr)%nat ->
            (q < String.length pre)%nat ->
            startswith sub (drop q (pre +:+ ub +:+ post))
            = startswith sub (drop q t)).
  { intros sub q Hsub Hq. rewrite Ht.
    rewrite !drop_app_lt by lia.
    apply startswith_app_agree.
    rewrite Hub, !app_assoc.
    rewrite !take_app_le; [reflexivity | |]; rewrite length_drop; lia. }
  exists (World (<[path := File (pre +:+ block +:+ post) true]> (files w)) (stdout w)).
  split; [exact (splice_marked path table_rows w before inside after Hf Hi Hj) |].
  rewrite (rerun_placed_block path table_rows _ pre post);
    cbn [files stdout]; fold block; fold ub;
    [ now rewrite insert_insert_eq
    | exact Hbs | exact Hbe | apply un_idem | apply un_idem
    | apply lookup_insert_eq | | ].
  - intros q Hq. rewrite Hsame by (try exact Hq; simpl; lia).
    apply find_none_before. right. unfold len in *. lia.
  - intros q Hq. rewrite Hsame by (try exact Hq; simpl; lia).
    apply find_none_before. right. unfold len in *.
    rewrite Hj', !length_app. fold pre. lia.
Qed.

Lemma merge_again_changes_nothing_witness :
  let c := "# Title" +:+ nl +:+ mdStartStr +:+ nl +:+ "old" +:+ nl +:+ mdEndStr
             +:+ nl +:+ "footer" in
  let table_rows := [mdStartStr; "| required |"; mdEndStr] in
  let w := World {[ "README.md" := File c true ]} [] in
  exists w1,
    writeFile (Some "README.md") table_rows w = (Ok tt, w1)
    /\ writeFile (Some "README.md") table_rows w1 = (Ok tt, w1).
Proof.
  intros c table_rows w.
  assert (Hf : files w !! "README.md" = Some (File c true)) by reflexivity.
  assert (Hij : 0 <= find mdStartStr c <= find mdEndStr c)
    by (vm_compute; split; discriminate).
  assert (Hbs : startswith mdStartStr (join nl table_rows) = true) by reflexivity.
  assert (Hbe : find mdEndStr (join nl table_rows)
                = len (join nl table_rows) - len mdEndStr) by reflexivity.
  exact (merge_again_changes_nothing "README.md" table_rows w c Hf Hij Hbs Hbe).
Defined.

(** [X18].  Appending, then merging, gives the appended document.  The
    target has no marker, and the block is as above.  The first run
    writes the text of the target as it is read (in text mode: every
    CR LF and every other CR has become LF), a newline and the block; a
    second run with the same block finds the two markers it has just
    written, takes the replacing branch, and leaves the world as the first
    run left it: nothing is appended twice. *)
Theorem merge_after_append_changes_nothing path table_rows w c :
  files w !! path = Some (File c true) ->
  find mdStartStr c = -1 ->
  find mdEndStr c = -1 ->
  startswith mdStartStr (join nl table_rows) = true ->
  find mdEndStr (join nl table_rows) = len (join nl table_rows) - len mdEndStr ->
  exists w1,
    writeFile (Some path) table_rows w = (Ok tt, w1)
    /\ files w1 !! path
       = Some (File (universal_newlines c +:+ nl +:+ join nl table_rows) true)
    /\ writeFile (Some path) table_rows w1 = (Ok tt, w1).
Proof.
  intros Hf Hns Hne Hbs Hbe.
  set (block := join nl table_rows) in *.
  set (t := universal_newlines c).
  set (ub := universal_newlines block).
  assert (Hts : find mdStartStr t = -1) by now apply find_start_read.
  assert (Hte : find mdEndStr t = -1) by now apply find_end_read.
  assert (Hpre : universal_newlines (t +:+ nl) = t +:+ nl)
    by (unfold t; now rewrite (un_app_fixed _ _ (un_idem c))).
  assert (Hdoc : t +:+ nl +:+ block = (t +:+ nl) +:+ block +:+ "")
    by now rewrite app_assoc, app_nil_r.
  (* no marker starts in [t] or at its newline *)
  assert (Hno : forall sub q,
            find sub t = -1 ->
            (forall m u, (m < String.length sub)%nat ->
                         startswith (drop m sub) (nl +:+ u) = false) ->
            (q < String.length (t +:+ nl))%nat ->
            startswith sub (drop q ((t +:+ nl) +:+ ub +:+ "")) = false).
  { intros sub q Hfind Hline Hq. rewrite length_app in Hq. simpl in Hq.
    rewrite app_assoc. rewrite drop_app_lt by lia.
    destruct (Nat.le_gt_cases (String.length sub) (String.length (drop q t)))
      as [Hlong | Hshort].
    - rewrite startswith_app_long by exact Hlong.
      apply find_none_before. now left.
    - destruct (startswith sub (drop q t +:+ nl +:+ ub +:+ "")) eqn:E;
        [| reflexivity].
      apply startswith_app_short in E; [| lia].
      rewrite Hline in E by exact Hshort. discriminate. }
  exists (World (<[path := File (t +:+ nl +:+ block) true]> (files w)) (stdout w)).
  split; [now apply no_marker_appends |].
  cbn [files]. split; [apply lookup_insert_eq |].
  rewrite Hdoc.
  rewrite (rerun_placed_block path table_rows _ (t +:+ nl) "");
    cbn [files stdout]; fold block; fold ub;
    [ now rewrite insert_insert_eq
    | exact Hbs | exact Hbe | exact Hpre | reflexivity
    | apply lookup_insert_eq | | ].
  - intros q Hq. apply Hno; [exact Hts | apply start_marker_one_line | exact Hq].
  - intros q Hq. apply Hno; [exact Hte | apply end_marker_one_line | exact Hq].
Qed.

Lemma merge_after_append_changes_nothing_witness :
  let c := "# Title" +:+ String cr nl +:+ "text" in
  let table_rows := [mdStartStr; "| required |"; mdEndStr] in
  let w := World {[ "README.md" := File c true ]} [] in
  exists w1,
    writeFile (Some "README.md") table_rows w = (Ok tt, w1)
    /\ files w1 !! "README.md"
       = Some (File ("# Title" +:+ nl +:+ "text" +:+ nl +:+ join nl table_rows) true)
    /\ writeFile (Some "README.md") table_rows w1 = (Ok tt, w1).
Proof.
  intros c table_rows w.
  assert (Hf : files w !! "README.md" = Some (File c true)) by reflexivity.
  assert (Hns : find mdStartStr c = -1) by reflexivity.
  assert (Hne : find mdEndStr c = -1) by reflexivity.
  assert (Hbs : startswith mdStartStr (join nl table_rows) = true) by reflexivity.
  assert (Hbe : find mdEndStr (join nl table_rows)
                = len (join nl table_rows) - len mdEndStr) by reflexivity.
  exact (merge_after_append_changes_nothing "README.md" table_rows w c
           Hf Hns Hne Hbs Hbe).
Defined.

End Rerun.

(** ** More on the loader *)

Module LoaderProps.
Import ADOPipelineDoc Rows RowFacts SinkFacts RunFacts.

Section Loader.
Context `{PyLib}.

(** [parseYAML] reads and never writes. *)
Lemma parseYAML_world yamlFile w : snd (parseYAML yamlFile w) = w.
Proof.
  destruct (files w !! yamlFile) as [[c [|] | |]|] eqn:Hf.
  - destruct (yaml_safe_load (PyStr.universal_newlines c)) as [v|] eqn:Hl.
    + rewrite (parseYAML_loaded _ _ _ _ Hf Hl).
      destruct v; try reflexivity.
      now destruct (truthy (dict_get_or d "parameters" (VList []))).
    + now rewrite (parseYAML_malformed _ _ _ Hf Hl).
  - now rewrite (parseYAML_denied _ _ _ Hf).
  - now rewrite (parseYAML_undecodable _ _ Hf).
  - now rewrite (parseYAML_directory _ _ Hf).
  - now rewrite (parseYAML_missing _ _ Hf).
Qed.

Lemma init_parse_raise yamlFile mdFile w e :
  parseYAML yamlFile w = (Raise e, w) ->
  init (Some yamlFile) mdFile w = (Raise e, w).
Proof. intros Hp. unfold init, bindM. now rewrite Hp. Qed.

(** [X1].  An input file that cannot be read ends the run before anything
    else happens, and the world is unchanged: "The file ... was not
    found." when there is no such file and "Permission denied for file
    ..." when it may not be read, both ADOPipelineDocExceptions; a file
    that is not UTF-8 text and a directory raise UnicodeDecodeError and
    IsADirectoryError, which [readFile] does not catch. *)
Theorem input_not_readable yamlFile mdFile w :
  (forall c, files w !! yamlFile <> Some (File c true)) ->
  let e := match files w !! yamlFile with
           | None => ADOPipelineDocException ConfigNotFound
           | Some (File _ _) => ADOPipelineDocException AccessDenied
           | Some Undecodable => UnicodeDecodeError
           | Some Directory => IsADirectoryError
           end in
  parseYAML yamlFile w = (Raise e, w)
  /\ init (Some yamlFile) mdFile w = (Raise e, w).
Proof.
  intros Hno e. subst e.
  destruct (files w !! yamlFile) as [[c [|] | |]|] eqn:Hf.
  - now destruct (Hno c).
  - pose proof (parseYAML_denied _ _ _ Hf) as Hp.
    split; [exact Hp | now apply init_parse_raise].
  - pose proof (parseYAML_undecodable _ _ Hf) as Hp.
    split; [exact Hp | now apply init_parse_raise].
  - pose proof (parseYAML_directory _ _ Hf) as Hp.
    split; [exact Hp | now apply init_parse_raise].
  - pose proof (parseYAML_missing _ _ Hf) as Hp.
    split; [exact Hp | now apply init_parse_raise].
Qed.

(** [X2].  A file that PyYAML cannot parse: the YAMLError is caught and
    raised again as the ADOPipelineDocException "Error parsing YAML
    file: ...". *)
Theorem malformed_input yamlFile mdFile w c :
  files w !! yamlFile = Some (File c true) ->
  yaml_safe_load (PyStr.universal_newlines c) = None ->
  parseYAML yamlFile w = (Raise (ADOPipelineDocException MalformedConfig), w)
  /\ init (Some yamlFile) mdFile w
     = (Raise (ADOPipelineDocException MalformedConfig), w).
Proof.
  intros Hf Hl. pose proof (parseYAML_malformed _ _ _ Hf Hl) as Hp.
  split; [exact Hp | now apply init_parse_raise].
Qed.

(** [X3].  A file that loads to None (an empty document, or [null]):
    "YAML file is empty or contains null data." *)
Theorem empty_input yamlFile mdFile w c :
  files w !! yamlFile = Some (File c true) ->
  yaml_safe_load (PyStr.universal_newlines c) = Some VNone ->
  parseYAML yamlFile w = (Raise (ADOPipelineDocException EmptyConfig), w)
  /\ init (Some yamlFile) mdFile w
     = (Raise (ADOPipelineDocException EmptyConfig), w).
Proof.
  intros Hf Hl. pose proof (parseYAML_loaded _ _ _ _ Hf Hl) as Hp.
  split; [exact Hp | now apply init_parse_raise].
Qed.

(** [X4].  A mapping whose [parameters] are missing or falsy (an empty
    list, null, an empty string, 0, false, an empty mapping): "YAML file
    has no parameters." *)
Theorem no_parameters yamlFile mdFile w c top :
  files w !! yamlFile = Some (File c true) ->
  yaml_safe_load (PyStr.universal_newlines c) = Some (VDict top) ->
  match dict_get top "parameters" with
  | None => True
  | Some params => truthy params = false
  end ->
  parseYAML yamlFile w = (Raise (ADOPipelineDocException NoParameters), w)
  /\ init (Some yamlFile) mdFile w
     = (Raise (ADOPipelineDocException NoParameters), w).
Proof.
  intros Hf Hl Hp.
  assert (Ht : truthy (dict_get_or top "parameters" (VList [])) = false).
  { unfold dict_get_or. destruct (dict_get top "parameters"); [exact Hp | reflexivity]. }
  pose proof (parseYAML_loaded _ _ _ _ Hf Hl) as Hy. cbv beta iota in Hy.
  rewrite Ht in Hy.
  split; [exact Hy | now apply init_parse_raise].
Qed.

(** [X5].  A mapping with truthy [parameters]: [parseYAML] answers that
    value as it is, whatever its shape (nothing checks that it is a list),
    and leaves the world unchanged. *)
Theorem parameters_loaded_as_they_are yamlFile w c top params :
  files w !! yamlFile = Some (File c true) ->
  yaml_safe_load (PyStr.universal_newlines c) = Some (VDict top) ->
  dict_get top "parameters" = Some params ->
  truthy params = true ->
  parseYAML yamlFile w = (Ok params, w).
Proof.
  intros Hf Hl Hp Ht.
  rewrite (parseYAML_loaded _ _ _ _ Hf Hl).
  unfold dict_get_or. rewrite Hp. cbn [from_option id]. now rewrite Ht.
Qed.

End Loader.

Lemma input_not_readable_witness :
  let w := World {[ "azure-pipelines.yml" := File Example.pipeline_yaml false ]} [] in
  @parseYAML Example.lib "azure-pipelines.yml" w
    = (Raise (ADOPipelineDocException AccessDenied), w)
  /\ @init Example.lib (Some "azure-pipelines.yml") None w
     = (Raise (ADOPipelineDocException AccessDenied), w).
Proof.
  intros w.
  assert (Hno : forall c, files w !! "azure-pipelines.yml" <> Some (File c true))
    by (intros c; vm_compute; discriminate).
  exact (@input_not_readable Example.lib "azure-pipelines.yml" None w Hno).
Defined.

Lemma malformed_input_witness :
  let w := World {[ "azure-pipelines.yml" := File "parameters: [" true ]} [] in
  @parseYAML Example.lib "azure-pipelines.yml" w
    = (Raise (ADOPipelineDocException MalformedConfig), w)
  /\ @init Example.lib (Some "azure-pipelines.yml") None w
     = (Raise (ADOPipelineDocException MalformedConfig), w).
Proof.
  intros w.
  assert (Hf : files w !! "azure-pipelines.yml" = Some (File "parameters: [" true))
    by reflexivity.
  assert (Hl : @yaml_safe_load Example.lib (PyStr.universal_newlines "parameters: [")
               = None) by reflexivity.
  exact (@malformed_input Example.lib "azure-pipelines.yml" None w _ Hf Hl).
Defined.

Lemma empty_input_witness :
  let lib := Fixture.lib [("null", VNone)] in
  let w := World {[ "azure-pipelines.yml" := File "null" true ]} [] in
  @parseYAML lib "azure-pipelines.yml" w
    = (Raise (ADOPipelineDocException EmptyConfig), w)
  /\ @init lib (Some "azure-pipelines.yml") None w
     = (Raise (ADOPipelineDocException EmptyConfig), w).
Proof.
  intros lib w.
  assert (Hf : files w !! "azure-pipelines.yml" = Some (File "null" true))
    by reflexivity.
  assert (Hl : @yaml_safe_load lib (PyStr.universal_newlines "null")
               = Some VNone) by reflexivity.
  exact (@empty_input lib "azure-pipelines.yml" None w _ Hf Hl).
Defined.

Lemma no_parameters_witness :
  let lib := Fixture.lib [("parameters: []", VDict [("parameters", VList [])])] in
  let w := World {[ "azure-pipelines.yml" := File "parameters: []" true ]} [] in
  @parseYAML lib "azure-pipelines.yml" w
    = (Raise (ADOPipelineDocException NoParameters), w)
  /\ @init lib (Some "azure-pipelines.yml") None w
     = (Raise (ADOPipelineDocException NoParameters), w).
Proof.
  intros lib w.
  assert (Hf : files w !! "azure-pipelines.yml" = Some (File "parameters: []" true))
    by reflexivity.
  assert (Hl : @yaml_safe_load lib (PyStr.universal_newlines "parameters: []")
               = Some (VDict [("parameters", VList [])])) by reflexivity.
  assert (Hp : match dict_get [("parameters", VList [])] "parameters" with
               | None => True
               | Some params => truthy params = false
               end) by reflexivity.
  exact (@no_parameters lib "azure-pipelines.yml" None w _ _ Hf Hl Hp).
Defined.

Lemma parameters_loaded_as_they_are_witness :
  let lib := Fixture.lib [("parameters: env", VDict [("parameters", VStr "env")])] in
  let w := World {[ "azure-pipelines.yml" := File "parameters: env" true ]} [] in
  @parseYAML lib "azure-pipelines.yml" w = (Ok (VStr "env"), w).
Proof.
  intros lib w.
  assert (Hf : files w !! "azure-pipelines.yml" = Some (File "parameters: env" true))
    by reflexivity.
  assert (Hl : @yaml_safe_load lib (PyStr.universal_newlines "parameters: env")
               = Some (VDict [("parameters", VStr "env")])) by reflexivity.
  assert (Hp : dict_get [("parameters", VStr "env")] "parameters" = Some (VStr "env"))
    by reflexivity.
  assert (Ht : truthy (VStr "env") = true) by reflexivity.
  exact (@parameters_loaded_as_they_are lib "azure-pipelines.yml" w _ _ _ Hf Hl Hp Ht).
Defined.

End LoaderProps.

(** ** More on the whole run *)

Module RunProps.
Import PyStr ADOPipelineDoc Rows RowFacts SinkFacts SinkProps RunFacts LoaderProps.

Section Run.
Context `{PyLib}.

(** [X6].  A run that raises has changed nothing: every exception of the
    loader and of the table comes before any output, and [writeFile]
    raises only before it writes. *)
Theorem failed_run_changes_nothing yamlFile mdFile w e w' :
  init yamlFile mdFile w = (Raise e, w') -> w' = w.
Proof.
  destruct yamlFile as [yamlFile|]; [| now intros [= _ <-]].
  unfold init, bindM, liftE.
  pose proof (parseYAML_world yamlFile w) as Hw.
  destruct (parseYAML yamlFile w) as [[parameters | e0] w0]; simpl in Hw; subst w0.
  - destruct (processData parameters mdFile) as [table_rows | e1].
    + intros Hrun. destruct mdFile as [path|]; [| discriminate].
      destruct (writeFile_cases path table_rows w)
        as [[_ E] | [(c & _ & E) | [[_ E] | [[_ E]
           | (c & _ & [E | [E | [text E]]])]]]];
        rewrite E in Hrun; congruence.
    + now intros [= _ <-].
  - now intros [= _ <-].
Qed.

(** [X7].  A run that succeeds either prints or writes, never both.
    Without a target it prints one text and changes no file; with a target
    it prints nothing and changes no file but the target. *)
Theorem run_prints_or_writes yamlFile mdFile w w' :
  init yamlFile mdFile w = (Ok tt, w') ->
  match mdFile with
  | None => files w' = files w /\ exists text, stdout w' = (stdout w ++ [text])%list
  | Some path =>
      stdout w' = stdout w
      /\ forall other, other <> path -> files w' !! other = files w !! other
  end.
Proof.
  destruct yamlFile as [yamlFile|]; [| discriminate].
  unfold init, bindM, liftE.
  pose proof (parseYAML_world yamlFile w) as Hw.
  destruct (parseYAML yamlFile w) as [[parameters | e0] w0]; simpl in Hw; subst w0;
    [| discriminate].
  destruct (processData parameters mdFile) as [table_rows | e1]; [| discriminate].
  intros Hrun. destruct mdFile as [path|].
  - destruct (writeFile_cases path table_rows w)
      as [[_ E] | [(c & _ & E) | [[_ E] | [[_ E]
           | (c & _ & [E | [E | [text E]]])]]]];
      rewrite E in Hrun; try discriminate.
    injection Hrun as <-. cbn [files stdout]. split; [reflexivity |].
    intros other Hne. now apply lookup_insert_ne.
  - injection Hrun as <-. cbn [files stdout]. split; [reflexivity | eauto].
Qed.

(** [X8].  The whole run without a target, on a file that loads to a
    mapping whose parameters are mappings with a truthy name and type: one
    text is printed, the header, the separator and one line per parameter
    joined by newlines, with no marker line; no file changes. *)
Theorem console_run yamlFile w c top (ds : list (dict value)) :
  files w !! yamlFile = Some (File c true) ->
  yaml_safe_load (PyStr.universal_newlines c) = Some (VDict top) ->
  dict_get top "parameters" = Some (VList (map VDict ds)) ->
  ds <> [] ->
  forallb valid_param ds = true ->
  init (Some yamlFile) None w =
    (Ok tt,
     World (files w)
           (stdout w
              ++ [join nl
                    (table_line (columns (usage ds))
                       :: table_line (separators (columns (usage ds)))
                       :: map (fun d => row_text (columns (usage ds))
                                          (prune (usage ds) (row_of d))) ds)])%list).
Proof.
  intros Hf Hl Hp Hne Hall.
  assert (Ht : truthy (VList (map VDict ds)) = true) by now destruct ds.
  unfold init, bindM, liftE.
  rewrite (parseYAML_loaded _ _ _ _ Hf Hl).
  unfold dict_get_or. rewrite Hp. cbn [from_option id]. rewrite Ht.
  rewrite processData_valid by exact Hall.
  cbn [opening closing app]. rewrite app_nil_r. reflexivity.
Qed.

End Run.

Lemma failed_run_changes_nothing_witness :
  let w := World {[ "azure-pipelines.yml" := File Example.untyped_yaml true;
                    "README.md" := File "# Pipeline" true ]} [] in
  @init Example.lib (Some "azure-pipelines.yml") (Some "README.md") w
    = (Raise (ADOPipelineDocException MissingRequiredField), w)
  /\ w = w.
Proof.
  intros w.
  assert (Hrun : @init Example.lib (Some "azure-pipelines.yml") (Some "README.md") w
                 = (Raise (ADOPipelineDocException MissingRequiredField), w))
    by (vm_compute; reflexivity).
  exact (conj Hrun (@failed_run_changes_nothing Example.lib _ _ w _ w Hrun)).
Defined.

Lemma run_prints_or_writes_witness :
  let w := World {[ "azure-pipelines.yml" := File Example.pipeline_yaml true;
                    "README.md" := File "# Pipeline" true ]} [] in
  let w' := snd (@init Example.lib (Some "azure-pipelines.yml") (Some "README.md") w) in
  stdout w' = stdout w
  /\ forall other, other <> "README.md" -> files w' !! other = files w !! other.
Proof.
  intros w w'.
  assert (Hrun : @init Example.lib (Some "azure-pipelines.yml") (Some "README.md") w
                 = (Ok tt, w')) by (vm_compute; reflexivity).
  exact (@run_prints_or_writes Example.lib _ (Some "README.md") w w' Hrun).
Defined.

Lemma console_run_witness :
  let w := World {[ "azure-pipelines.yml" := File Example.pipeline_yaml true ]} [] in
  @init Example.lib (Some "azure-pipelines.yml") None w =
    (Ok tt,
     World (files w)
           (stdout w
              ++ [join nl
                    (table_line (columns (usage Example.pipeline_params))
                       :: table_line (separators (columns (usage Example.pipeline_params)))
                       :: map (fun d => @row_text Example.lib
                                          (columns (usage Example.pipeline_params))
                                          (prune (usage Example.pipeline_params)
                                             (@row_of Example.lib d)))
                            Example.pipeline_params)])%list).
Proof.
  intros w.
  assert (Hf : files w !! "azure-pipelines.yml" = Some (File Example.pipeline_yaml true))
    by reflexivity.
  assert (Hl : @yaml_safe_load Example.lib (PyStr.universal_newlines Example.pipeline_yaml)
               = Some (VDict [("parameters", VList (map VDict Example.pipeline_params))]))
    by reflexivity.
  assert (Hp : dict_get [("parameters", VList (map VDict Example.pipeline_params))]
                 "parameters"
               = Some (VList (map VDict Example.pipeline_params))) by reflexivity.
  assert (Hne : Example.pipeline_params <> []) by discriminate.
  assert (Hall : forallb valid_param Example.pipeline_params = true) by reflexivity.
  exact (@console_run Example.lib "azure-pipelines.yml" w _ _ _ Hf Hl Hp Hne Hall).
Defined.

End RunProps.

(** ** More on the table *)

Module TableProps.
Import PyStr PyStrFacts ADOPipelineDoc Rows RowFacts.

Section Table.
Context `{PyLib}.

Lemma forE_app {S A} (body : S -> A -> outcome S) (l1 l2 : list A) st :
  forE body (l1 ++ l2)%list st = bindE (forE body l1 st) (forE body l2).
Proof.
  revert st; induction l1 as [|x l1 IH]; intros st; cbn [forE app bindE].
  - reflexivity.
  - destruct (body st x); cbn [bindE]; [apply IH | reflexivity].
Qed.

(** The row that [build] has for the i-th parameter. *)
Lemma built_row (ds : list (dict value)) (i : nat) d :
  forallb valid_param ds = true ->
  ds !! i = Some d ->
  build (VList (map VDict ds))
    = Ok (columns (usage ds), map (fun d => prune (usage ds) (row_of d)) ds)
  /\ map (fun d => prune (usage ds) (row_of d)) ds !! i
     = Some (prune (usage ds) (row_of d)).
Proof.
  intros Hall Hi. split; [now apply build_valid |].
  change (@map) with (@fmap list _). now rewrite list_lookup_fmap, Hi.
Qed.

(** [X9].  On a list of mappings [processData] either answers a table or
    raises MissingRequiredField: it answers a table exactly when every
    mapping has a truthy name and a truthy type.  The exceptions of
    [prettyObject], the ValueError of [list.remove] and the KeyError of
    the separator lookup cannot happen. *)
Theorem table_or_missing_field (ds : list (dict value)) mdFile :
  (forallb valid_param ds = true
   /\ exists table_rows, processData (VList (map VDict ds)) mdFile = Ok table_rows)
  \/ (forallb valid_param ds = false
      /\ processData (VList (map VDict ds)) mdFile
         = Raise (ADOPipelineDocException MissingRequiredField)).
Proof.
  destruct (forallb valid_param ds) eqn:Hall.
  - left. split; [reflexivity |]. rewrite processData_valid by exact Hall. eauto.
  - right. split; [reflexivity |]. now apply processData_invalid.
Qed.

(** [X10].  A parameter that is not a mapping (a string, a number, a list)
    makes [param.get] raise AttributeError, when every parameter before it
    passed the name and type test; what comes after it is not looked
    at. *)
Theorem non_mapping_parameter (ds : list (dict value)) v rest mdFile :
  forallb valid_param ds = true ->
  (forall d, v <> VDict d) ->
  processData (VList (map VDict ds ++ v :: rest)) mdFile = Raise AttributeError.
Proof.
  intros Hall Hv. unfold processData, build, iter. cbn [bindE].
  change use_col with (flags false false false).
  rewrite forE_app, forE_build_row_valid by exact Hall.
  cbn [bindE forE]. now rewrite build_row_other.
Qed.

(** [X11].  Parameters that are not a list.  A non-empty mapping is
    iterated by its keys and a non-empty string by its characters, which
    are strings: AttributeError at the first [param.get].  A number or a
    boolean cannot be iterated: TypeError. *)
Theorem parameters_not_a_list mdFile :
  (forall k v d, processData (VDict ((k, v) :: d)) mdFile = Raise AttributeError)
  /\ (forall a s, processData (VStr (String a s)) mdFile = Raise AttributeError)
  /\ (forall z, processData (VInt z) mdFile = Raise TypeError)
  /\ (forall b, processData (VBool b) mdFile = Raise TypeError).
Proof. repeat split; reflexivity. Qed.

(** [X19].  A target only adds the two marker lines: with a target
    [processData] answers what it answers without one, between the start
    marker line and the end marker line, and it raises what it raises
    without one. *)
Theorem target_adds_the_marker_lines parameters path :
  processData parameters (Some path) =
    match processData parameters None with
    | Ok table_rows => Ok (mdStartStr :: table_rows ++ [mdEndStr])%list
    | Raise e => Raise e
    end.
Proof.
  unfold processData, render, bindE.
  destruct (build parameters) as [[cols rows] | e]; [| reflexivity].
  destruct (mapE separator_cell cols) as [cells | e]; [| reflexivity].
  reflexivity.
Qed.

(** [X20].  The first two lines of the table.  The header names required,
    name and type, then displayName, values and default, each only if some
    parameter populates it, in this order; the separator has [:-:] under
    required and [:--] under every other column. *)
Theorem header_and_separator (ds : list (dict value)) :
  forallb valid_param ds = true ->
  let optional := List.filter (fun key => existsb (populates key) ds)
                    ["displayName"; "values"; "default"] in
  exists data_lines,
    processData (VList (map VDict ds)) None =
      Ok (table_line (["required"; "name"; "type"] ++ optional)
            :: table_line ([":-:"; ":--"; ":--"] ++ map (fun _ => ":--") optional)
            :: data_lines)%list
    /\ length data_lines = length ds.
Proof.
  intros Hall optional. subst optional.
  rewrite processData_valid by exact Hall. cbn [opening closing app].
  exists (map (fun d => row_text (columns (usage ds)) (prune (usage ds) (row_of d))) ds).
  split; [| apply length_map].
  rewrite List.app_nil_r. do 2 f_equal; [| f_equal]; unfold usage; cbn [List.filter];
  destruct (existsb (populates "displayName") ds),
    (existsb (populates "values") ds), (existsb (populates "default") ds);
    reflexivity.
Qed.

(** Replacing every newline leaves none. *)
Lemma find_nl_cons a s :
  Ascii.eqb (ascii_of_N 10) a = false ->
  find nl s = -1 -> find nl (String a s) = -1.
Proof.
  intros Ha Hs. cbn [find nl startswith]. rewrite Ha. cbn [andb]. now rewrite Hs.
Qed.

Lemma find_nl_replace s : find nl (replace (ascii_of_N 10) "<br/>" s) = -1.
Proof.
  induction s as [|a s IH]; [reflexivity |].
  cbn [replace]. destruct (Ascii.eqb_spec a (ascii_of_N 10)) as [-> | Hne].
  - change ("<br/>" +:+ ?r) with (String "<" (String "b" (String "r" (String "/" (String ">" r))))).
    now repeat (apply find_nl_cons; [reflexivity |]).
  - apply find_nl_cons; [| exact IH].
    destruct (Ascii.eqb_spec (ascii_of_N 10) a); [congruence | reflexivity].
Qed.

(** [X21].  Whatever [prettyObject] answers fits on one line: it holds no
    newline, since every newline of the dumped text has become ["<br/>"]. *)
Theorem prettyObject_one_line obj key s :
  prettyObject obj key = Ok s -> find nl s = -1.
Proof.
  unfold prettyObject, bindE.
  destruct key as [k|];
    [destruct obj; try discriminate; destruct (dict_get d k); try discriminate |];
    intros [= <-]; apply find_nl_replace.
Qed.

End Table.
End TableProps.

Module TableExamples.
Import PyStr ADOPipelineDoc Rows TableProps.

Lemma non_mapping_parameter_witness :
  @processData Example.lib
    (VList (map VDict Example.pipeline_params ++ VStr "env" :: [VInt 3])) None
  = Raise AttributeError.
Proof.
  assert (Hall : forallb valid_param Example.pipeline_params = true) by reflexivity.
  assert (Hv : forall d, VStr "env" <> VDict d) by (intros d; discriminate).
  exact (@non_mapping_parameter Example.lib Example.pipeline_params
           (VStr "env") [VInt 3] None Hall Hv).
Defined.

Lemma header_and_separator_witness :
  let optional := List.filter (fun key => existsb (populates key) Example.pipeline_params)
                    ["displayName"; "values"; "default"] in
  exists data_lines,
    @processData Example.lib (VList (map VDict Example.pipeline_params)) None =
      Ok (table_line (["required"; "name"; "type"] ++ optional)
            :: table_line ([":-:"; ":--"; ":--"] ++ map (fun _ => ":--") optional)
            :: data_lines)%list
    /\ length data_lines = length Example.pipeline_params.
Proof.
  assert (Hall : forallb valid_param Example.pipeline_params = true) by reflexivity.
  exact (@header_and_separator Example.lib Example.pipeline_params Hall).
Defined.

Lemma prettyObject_one_line_witness :
  @prettyObject Example.lib
    (VDict [("values", VList [VStr "dev"; VStr "prod"])]) (Some "values")
  = Ok "- dev<br/>- prod"
  /\ find nl "- dev<br/>- prod" = -1.
Proof.
  assert (Hp : @prettyObject Example.lib
                 (VDict [("values", VList [VStr "dev"; VStr "prod"])]) (Some "values")
               = Ok "- dev<br/>- prod") by reflexivity.
  exact (conj Hp (@prettyObject_one_line Example.lib _ _ _ Hp)).
Defined.

End TableExamples.

(** ** The cells of a row *)

Module CellProps.
Import PyStr ADOPipelineDoc Rows RowFacts TableProps.

Section Cells.
Context `{PyLib}.

Lemma lookup_In (ds : list (dict value)) (i : nat) d : ds !! i = Some d -> In d ds.
Proof. intros Hi. apply list_elem_of_In. eapply list_elem_of_lookup_2. exact Hi. Qed.

Lemma existsb_populates (ds : list (dict value)) d key :
  In d ds -> populates key d = true -> existsb (populates key) ds = true.
Proof. intros Hin Hp. apply existsb_exists. eauto. Qed.

(** [X22].  A parameter with populated values: the values column is in the
    table, and the values cell of its row is what [prettyObject] answers
    for the values, whatever the type of the parameter. *)
Theorem values_cell_is_pretty (ds : list (dict value)) (i : nat) d :
  forallb valid_param ds = true ->
  ds !! i = Some d ->
  populates "values" d = true ->
  exists cols rows row,
    build (VList (map VDict ds)) = Ok (cols, rows)
    /\ rows !! i = Some row
    /\ In "values" cols
    /\ prettyObject (VDict d) (Some "values")
       = Ok (pretty (dict_get_or d "values" VNone))
    /\ dict_get_or row "values" (VStr "")
       = VStr (pretty (dict_get_or d "values" VNone)).
Proof.
  intros Hall Hi Hv.
  destruct (built_row ds i d Hall Hi) as [Hb Hrow].
  pose proof (existsb_populates ds d "values" (lookup_In ds i d Hi) Hv) as Hu.
  eexists _, _, _. split; [exact Hb |]. split; [exact Hrow |].
  split; [| split].
  - unfold usage. apply columns_optional; [simpl; auto |].
    cbn [flags dict_get String.eqb Ascii.eqb Bool.eqb]. now rewrite Hu.
  - now apply prettyObject_key.
  - unfold dict_get_or, usage. rewrite dict_get_prune, dict_get_row_of.
    cbn [flags dict_get String.eqb Ascii.eqb Bool.eqb]. rewrite Hu, Hv.
    reflexivity.
Qed.

(** [X23].  A parameter with a populated default: the default column is in
    the table, and the default cell of its row is what [prettyObject]
    answers for the default when the type is "object", and the default
    itself for every other type. *)
Theorem default_cell (ds : list (dict value)) (i : nat) d v :
  forallb valid_param ds = true ->
  ds !! i = Some d ->
  List.NoDup (dict_keys d) ->
  dict_get d "default" = Some v ->
  truthy v = true ->
  exists cols rows row,
    build (VList (map VDict ds)) = Ok (cols, rows)
    /\ rows !! i = Some row
    /\ In "default" cols
    /\ dict_get_or row "default" (VStr "")
       = if eq_str (dict_get_or d "type" VNone) "object"
         then VStr (pretty v) else v.
Proof.
  intros Hall Hi Hnd Hd Hv.
  destruct (built_row ds i d Hall Hi) as [Hb Hrow].
  assert (Hp : populates "default" d = true)
    by (unfold populates, dict_get_or; now rewrite Hd).
  pose proof (existsb_populates ds d "default" (lookup_In ds i d Hi) Hp) as Hu.
  eexists _, _, _. split; [exact Hb |]. split; [exact Hrow |]. split.
  - unfold usage. apply columns_optional; [simpl; auto |].
    cbn [flags dict_get String.eqb Ascii.eqb Bool.eqb]. now rewrite Hu.
  - unfold dict_get_or at 1. unfold usage.
    rewrite dict_get_prune, dict_get_row_of.
    cbn [flags dict_get String.eqb Ascii.eqb Bool.eqb]. rewrite Hu, Hp.
    rewrite (dict_get_rev_NoDup _ _ Hnd), Hd.
    rewrite !andb_false_r, andb_true_r.
    unfold dict_get_or at 2. rewrite Hd. cbn [from_option id].
    now destruct (eq_str (dict_get_or d "type" VNone) "object").
Qed.

(** [X24].  The required cell.  Required is always a column.  A parameter
    with a populated default has an empty required cell, whatever else it
    holds; a parameter without a populated default and without a field
    named required has the required cell "Yes". *)
Theorem required_cell (ds : list (dict value)) (i : nat) d :
  forallb valid_param ds = true ->
  ds !! i = Some d ->
  exists cols rows row,
    build (VList (map VDict ds)) = Ok (cols, rows)
    /\ rows !! i = Some row
    /\ In "required" cols
    /\ (populates "default" d = true ->
        PyShow.str (dict_get_or row "required" (VStr "")) = "")
    /\ (populates "default" d = false ->
        dict_get d "required" = None ->
        PyShow.str (dict_get_or row "required" (VStr "")) = "Yes").
Proof.
  intros Hall Hi.
  destruct (built_row ds i d Hall Hi) as [Hb Hrow].
  eexists _, _, _. split; [exact Hb |]. split; [exact Hrow |].
  unfold usage. split; [apply columns_required; simpl; auto |].
  split; [apply required_cell_empty | apply required_cell_yes].
Qed.

(** [X25].  A default that is there but falsy (0, false, an empty string,
    list or mapping, null).  The parameter does not count as populating
    the default, so the column is there only if another parameter
    populates it; when it is there, the default cell of the row is that
    falsy value; and the required cell is "Yes" for a parameter without a
    field named required. *)
Theorem falsy_default_cell (ds : list (dict value)) (i : nat) d v :
  forallb valid_param ds = true ->
  ds !! i = Some d ->
  List.NoDup (dict_keys d) ->
  dict_get d "default" = Some v ->
  truthy v = false ->
  populates "default" d = false
  /\ exists cols rows row,
       build (VList (map VDict ds)) = Ok (cols, rows)
       /\ rows !! i = Some row
       /\ (In "default" cols <->
           exists d', In d' ds /\ populates "default" d' = true)
       /\ (In "default" cols -> dict_get_or row "default" (VStr "") = v)
       /\ (dict_get d "required" = None ->
           PyShow.str (dict_get_or row "required" (VStr "")) = "Yes").
Proof.
  intros Hall Hi Hnd Hd Hv.
  destruct (built_row ds i d Hall Hi) as [Hb Hrow].
  destruct (falsy_default_kept d v Hnd Hd Hv) as [Hp Hcell].
  split; [exact Hp |].
  eexists _, _, _. split; [exact Hb |]. split; [exact Hrow |].
  split; [| split].
  - unfold usage at 1. rewrite columns_optional by (simpl; auto).
    apply usage_populated. simpl; auto.
  - unfold usage. intros Hin. apply columns_optional in Hin; [| simpl; auto].
    unfold dict_get_or. rewrite dict_get_prune, Hin, Hcell. reflexivity.
  - intros Hr. unfold usage. now apply required_cell_yes.
Qed.

End Cells.

Lemma values_cell_is_pretty_witness :
  let ds := [ [("name", VStr "env"); ("type", VStr "string");
               ("values", VList [VStr "dev"; VStr "prod"])] ] in
  exists cols rows row,
    @build Example.lib (VList (map VDict ds)) = Ok (cols, rows)
    /\ rows !! 0%nat = Some row
    /\ In "values" cols
    /\ @prettyObject Example.lib
         (VDict [("name", VStr "env"); ("type", VStr "string");
                 ("values", VList [VStr "dev"; VStr "prod"])]) (Some "values")
       = Ok (@pretty Example.lib (VList [VStr "dev"; VStr "prod"]))
    /\ dict_get_or row "values" (VStr "")
       = VStr (@pretty Example.lib (VList [VStr "dev"; VStr "prod"])).
Proof.
  intros ds.
  assert (Hall : forallb valid_param ds = true) by reflexivity.
  assert (Hi : ds !! 0%nat = Some [("name", VStr "env"); ("type", VStr "string");
                                   ("values", VList [VStr "dev"; VStr "prod"])])
    by reflexivity.
  assert (Hv : populates "values" [("name", VStr "env"); ("type", VStr "string");
                                   ("values", VList [VStr "dev"; VStr "prod"])] = true)
    by reflexivity.
  exact (@values_cell_is_pretty Example.lib ds 0%nat _ Hall Hi Hv).
Defined.

Lemma default_cell_witness :
  let d := [("name", VStr "tags"); ("type", VStr "object");
            ("default", VList [VStr "a"; VStr "b"])] in
  exists cols rows row,
    @build Example.lib (VList (map VDict [d])) = Ok (cols, rows)
    /\ rows !! 0%nat = Some row
    /\ In "default" cols
    /\ dict_get_or row "default" (VStr "")
       = VStr (@pretty Example.lib (VList [VStr "a"; VStr "b"])).
Proof.
  intros d.
  assert (Hall : forallb valid_param [d] = true) by reflexivity.
  assert (Hi : [d] !! 0%nat = Some d) by reflexivity.
  assert (Hnd : List.NoDup (dict_keys d)).
  { repeat constructor; simpl; intuition discriminate. }
  assert (Hd : dict_get d "default" = Some (VList [VStr "a"; VStr "b"])) by reflexivity.
  assert (Hv : truthy (VList [VStr "a"; VStr "b"]) = true) by reflexivity.
  exact (@default_cell Example.lib [d] 0%nat d _ Hall Hi Hnd Hd Hv).
Defined.

Lemma required_cell_witness :
  exists cols rows row,
    @build Example.lib (VList (map VDict Example.pipeline_params)) = Ok (cols, rows)
    /\ rows !! 1%nat = Some row
    /\ In "required" cols
    /\ (populates "default"
          [("name", VStr "replicas"); ("type", VStr "number"); ("default", VInt 3)]
        = true ->
        @PyShow.str Example.lib (dict_get_or row "required" (VStr "")) = "")
    /\ (populates "default"
          [("name", VStr "replicas"); ("type", VStr "number"); ("default", VInt 3)]
        = false ->
        dict_get [("name", VStr "replicas"); ("type", VStr "number");
                  ("default", VInt 3)] "required" = None ->
        @PyShow.str Example.lib (dict_get_or row "required" (VStr "")) = "Yes").
Proof.
  assert (Hall : forallb valid_param Example.pipeline_params = true) by reflexivity.
  assert (Hi : Example.pipeline_params !! 1%nat
               = Some [("name", VStr "replicas"); ("type", VStr "number");
                       ("default", VInt 3)]) by reflexivity.
  exact (@required_cell Example.lib Example.pipeline_params 1%nat _ Hall Hi).
Defined.

Lemma falsy_default_cell_witness :
  let d := [("name", VStr "retries"); ("type", VStr "number"); ("default", VInt 0)] in
  let ds := [d; [("name", VStr "replicas"); ("type", VStr "number");
                 ("default", VInt 3)]] in
  populates "default" d = false
  /\ exists cols rows row,
       @build Example.lib (VList (map VDict ds)) = Ok (cols, rows)
       /\ rows !! 0%nat = Some row
       /\ (In "default" cols <->
           exists d', In d' ds /\ populates "default" d' = true)
       /\ (In "default" cols -> dict_get_or row "default" (VStr "") = VInt 0)
       /\ (dict_get d "required" = None ->
           @PyShow.str Example.lib (dict_get_or row "required" (VStr "")) = "Yes").
Proof.
  intros d ds.
  assert (Hall : forallb valid_param ds = true) by reflexivity.
  assert (Hi : ds !! 0%nat = Some d) by reflexivity.
  assert (Hnd : List.NoDup (dict_keys d)).
  { repeat constructor; simpl; intuition discriminate. }
  assert (Hd : dict_get d "default" = Some (VInt 0)) by reflexivity.
  assert (Hv : truthy (VInt 0) = false) by reflexivity.
  exact (@falsy_default_cell Example.lib ds 0%nat d _ Hall Hi Hnd Hd Hv).
Defined.

Lemma unrecognized_fields_ignored_witness :
  let ds := [ [("name", VStr "env"); ("type", VStr "string");
               ("owner", VStr "platform")];
              [("name", VStr "replicas"); ("type", VStr "number");
               ("default", VInt 3); ("required", VBool true)] ] in
  @processData Example.lib (VList (map VDict (map strip_unknown ds))) None =
  @processData Example.lib (VList (map VDict ds)) None.
Proof.
  intros ds.
  assert (Hreq : forall d, In d ds ->
                   populates "default" d = true \/ dict_get d "required" = None).
  { intros d [<- | [<- | []]]; [right | left]; reflexivity. }
  exact (@unrecognized_fields_ignored Example.lib ds None Hreq).
Defined.

End CellProps.

(** ** The script [parse_pipeline.py] *)

Module ScriptProps.
Import PyStr PyStrFacts ADOPipelineDoc ParsePipeline.

Section Script.
Context `{PyLib}.

Lemma forE_add_line (ds : list (dict value)) : forall table,
  forE add_line (map VDict ds) table
  = Ok (table +:+ String.concat "" (map line_of ds)).
Proof.
  induction ds as [|d ds IH]; intros table; cbn [map forE].
  - cbn [String.concat]. now rewrite app_nil_r.
  - cbn [add_line get bindE]. rewrite IH. f_equal.
    fold (line_of d).
    assert (E : String.concat "" (line_of d :: map line_of ds)
                = line_of d +:+ String.concat "" (map line_of ds)).
    { destruct ds as [|d' ds']; cbn [map String.concat];
        [now rewrite app_nil_r | reflexivity]. }
    rewrite E. unfold line_of. now rewrite !app_assoc.
Qed.

(** [X26].  The script checks nothing: for parameters that are mappings it
    always answers the two header lines followed by one line per
    parameter, in order, a missing name, type, default or description
    giving an empty cell; the world is unchanged. *)
Theorem script_table yaml_file_path w c top (ds : list (dict value)) :
  files w !! yaml_file_path = Some (File c true) ->
  yaml_safe_load (PyStr.universal_newlines c) = Some (VDict top) ->
  dict_get top "parameters" = Some (VList (map VDict ds)) ->
  parse_yaml_to_markdown yaml_file_path w
  = (Ok (table_head +:+ String.concat "" (map line_of ds)), w).
Proof.
  intros Hf Hl Hp.
  unfold parse_yaml_to_markdown, bindM, liftE, open_read. rewrite Hf.
  rewrite Hl. cbn [get]. unfold dict_get_or. rewrite Hp. cbn [from_option id iter].
  now rewrite forE_add_line.
Qed.

(** [X27].  The edges of the script, by what the file loads to.  A mapping
    without parameters gives the two header lines alone.  None makes
    [yaml_content.get] raise AttributeError, and so does any other value
    that is not a mapping; parameters that are None make the loop raise
    TypeError.  Nothing is caught and the world is unchanged. *)
Theorem script_edges yaml_file_path w c v :
  files w !! yaml_file_path = Some (File c true) ->
  yaml_safe_load (PyStr.universal_newlines c) = Some v ->
  match v with
  | VDict top =>
      match dict_get top "parameters" with
      | None => parse_yaml_to_markdown yaml_file_path w = (Ok table_head, w)
      | Some VNone => parse_yaml_to_markdown yaml_file_path w = (Raise TypeError, w)
      | Some _ => True
      end
  | _ => parse_yaml_to_markdown yaml_file_path w = (Raise AttributeError, w)
  end.
Proof.
  intros Hf Hl.
  unfold parse_yaml_to_markdown, bindM, liftE, open_read.
  rewrite Hf. rewrite Hl.
  destruct v; try reflexivity.
  cbn [get]. unfold dict_get_or.
  destruct (dict_get d "parameters") as [[]|]; try exact I; reflexivity.
Qed.

End Script.

Lemma script_table_witness :
  let w := World {[ "azure-pipelines.yml" := File Example.untyped_yaml true ]} [] in
  @parse_yaml_to_markdown Example.lib "azure-pipelines.yml" w
  = (Ok (table_head
           +:+ String.concat "" (map (@line_of Example.lib) Example.untyped_params)), w).
Proof.
  intros w.
  assert (Hf : files w !! "azure-pipelines.yml" = Some (File Example.untyped_yaml true))
    by reflexivity.
  assert (Hl : @yaml_safe_load Example.lib (PyStr.universal_newlines Example.untyped_yaml)
               = Some (VDict [("parameters", VList (map VDict Example.untyped_params))]))
    by reflexivity.
  assert (Hp : dict_get [("parameters", VList (map VDict Example.untyped_params))]
                 "parameters"
               = Some (VList (map VDict Example.untyped_params))) by reflexivity.
  exact (@script_table Example.lib "azure-pipelines.yml" w _ _ _ Hf Hl Hp).
Defined.

Lemma script_edges_witness :
  let lib := Fixture.lib [("null", VNone)] in
  let w := World {[ "azure-pipelines.yml" := File "null" true ]} [] in
  @parse_yaml_to_markdown lib "azure-pipelines.yml" w = (Raise AttributeError, w).
Proof.
  intros lib w.
  assert (Hf : files w !! "azure-pipelines.yml" = Some (File "null" true)) by reflexivity.
  assert (Hl : @yaml_safe_load lib (PyStr.universal_newlines "null")
               = Some VNone) by reflexivity.
  exact (@script_edges lib "azure-pipelines.yml" w "null" VNone Hf Hl).
Defined.

End ScriptProps.
